(** * Jellyfin catalog: scanner and sorter of [jellyork_catalog.py]

    A shallow embedding of the metadata pipeline of [jellyork_catalog.py]
    (the classes [JellyfinScanner] and [CatalogSorter]) and the properties
    of it that the specification states.

    Python values are represented as follows.
    - [str] is [string].  The development covers the 7-bit ASCII fragment of
      Python strings: [lower], [upper] and the white-space class are those of
      Python on code points below 128, and a character above 127 is left
      alone by the case maps and is never white space.
    - [int] (season numbers) is [N]; [len] is [nat].
    - [Optional[T]] is [option T], and a call that raises is [None] in the
      result type of the function that raises.
    - [pathlib.Path] is the list of its components below the root of the
      file tree; the file tree is a [Node].  Paths are POSIX paths: names
      are compared and matched with the case of their letters.  A directory
      lists its entries in the order of the list it holds, and [rglob]
      walks the tree as [pathlib] of CPython 3.8 to 3.12 does.
    - An [xml.etree] element is an [Element]; the XML parser is not modelled:
      a file holds either the tree the parser returns or nothing parsable. *)

From Stdlib Require Import List String Ascii Bool Arith NArith Lia.
From Stdlib Require Import Sorted Permutation DecimalString DecimalPos.
Import ListNotations.
Set Warnings "-register-all".
Local Open Scope string_scope.
Local Open Scope list_scope.

(** ** Python string operations on the ASCII fragment *)

Module PyStr.

(** [str.isspace] on one character: TAB..CR, FS..US and the space. *)
Definition isspace (c : ascii) : bool :=
  let n := nat_of_ascii c in
  (((9 <=? n) && (n <=? 13)) || ((28 <=? n) && (n <=? 32)))%nat.

Definition isupper (c : ascii) : bool :=
  let n := nat_of_ascii c in ((65 <=? n) && (n <=? 90))%nat.

Definition islower (c : ascii) : bool :=
  let n := nat_of_ascii c in ((97 <=? n) && (n <=? 122))%nat.

Definition isdigit (c : ascii) : bool :=
  let n := nat_of_ascii c in ((48 <=? n) && (n <=? 57))%nat.

Definition lower_char (c : ascii) : ascii :=
  if isupper c then ascii_of_nat (nat_of_ascii c + 32) else c.

Definition upper_char (c : ascii) : ascii :=
  if islower c then ascii_of_nat (nat_of_ascii c - 32) else c.

Fixpoint map_chars (f : ascii -> ascii) (s : string) : string :=
  match s with
  | EmptyString => EmptyString
  | String c s' => String (f c) (map_chars f s')
  end.

Fixpoint all_chars (p : ascii -> bool) (s : string) : bool :=
  match s with
  | EmptyString => true
  | String c s' => p c && all_chars p s'
  end.

(** [s.lower()] and [s.upper()] *)
Definition lower : string -> string := map_chars lower_char.
Definition upper : string -> string := map_chars upper_char.

(** [s.capitalize()]: the first character upper-cased, the rest
    lower-cased. *)
Definition capitalize (s : string) : string :=
  match s with
  | EmptyString => EmptyString
  | String c s' => String (upper_char c) (lower s')
  end.

Definition is_empty (s : string) : bool :=
  match s with EmptyString => true | _ => false end.

(** [s.lstrip()], [s.rstrip()] and [s.strip()] without argument *)
Fixpoint lstrip (s : string) : string :=
  match s with
  | EmptyString => EmptyString
  | String c s' => if isspace c then lstrip s' else s
  end.

Fixpoint rstrip (s : string) : string :=
  match s with
  | EmptyString => EmptyString
  | String c s' =>
      let r := rstrip s' in
      if isspace c && is_empty r then EmptyString else String c r
  end.

Definition strip (s : string) : string := rstrip (lstrip s).

(** [s.split()] without argument: the maximal runs of characters that are
    not white space.  [cur] is the run being read. *)
Fixpoint split_from (cur : string) (s : string) : list string :=
  match s with
  | EmptyString => if is_empty cur then [] else [cur]
  | String c s' =>
      if isspace c
      then (if is_empty cur then split_from EmptyString s'
            else cur :: split_from EmptyString s')
      else split_from (cur ++ String c EmptyString) s'
  end.

Definition split (s : string) : list string := split_from EmptyString s.

(** [sep.join(parts)] *)
Definition join (sep : string) (parts : list string) : string :=
  String.concat sep parts.

(** [s.startswith(p)] and [s.endswith(p)] *)
Definition startswith (s p : string) : bool := String.prefix p s.

Fixpoint rev_string (s : string) : string :=
  match s with
  | EmptyString => EmptyString
  | String c s' => rev_string s' ++ String c EmptyString
  end.

Definition endswith (s p : string) : bool :=
  String.prefix (rev_string p) (rev_string s).

(** The order of [str]: lexicographic on code points. *)
Definition lt (a b : string) : bool := String.ltb a b.

(** [int(digits)] for a string of decimal digits *)
Definition digit_value (c : ascii) : N := N.of_nat (nat_of_ascii c - 48).

Fixpoint int_from (acc : N) (s : string) : N :=
  match s with
  | EmptyString => acc
  | String c s' => int_from (acc * 10 + digit_value c)%N s'
  end.

Definition int_of_digits (s : string) : N := int_from 0%N s.

(** [f"{n}"] and [f"{n:02d}"] for a non-negative [n] *)
Definition str_of_int (n : N) : string :=
  NilZero.string_of_uint (N.to_uint n).

Definition str_of_int_02d (n : N) : string :=
  let s := str_of_int n in
  if (String.length s <? 2)%nat then "0" ++ s else s.

End PyStr.

(** ** [sorted] *)

Module PySort.

Section Sorted.
Context {A K : Type}.
Variable key : A -> K.
Variable lt : K -> K -> bool.

(** [x] goes in front of the first element whose key is not below its
    own, so that it stays in front of the elements it is equal to. *)
Fixpoint insert (x : A) (l : list A) : list A :=
  match l with
  | [] => [x]
  | y :: l' =>
      if lt (key y) (key x) then y :: insert x l' else x :: y :: l'
  end.

(** The stable ascending sort: [list.sort] compares keys with [<] only
    and keeps elements with equal keys in their order. *)
Definition stable_sort (l : list A) : list A := fold_right insert [] l.

(** [x] is not after [y]: the key of [y] is not below the key of [x] *)
Definition not_after (x y : A) : Prop := lt (key y) (key x) = false.

(** [sorted(l, key=key, reverse=reverse)].  With [reverse=True] CPython
    reverses the list, sorts it ascending and reverses the result. *)
Definition sorted (reverse : bool) (l : list A) : list A :=
  if reverse then rev (stable_sort (rev l)) else stable_sort l.
End Sorted.

(** [<] on a pair of strings, as on a Python tuple: the first components
    decide unless they are equal. *)
Definition pair_lt (a b : string * string) : bool :=
  if String.eqb (fst a) (fst b) then PyStr.lt (snd a) (snd b)
  else PyStr.lt (fst a) (fst b).

End PySort.

(** ** XML elements *)

Inductive Element : Type :=
| Elem (tag : string) (text : option string) (children : list Element).

Module ET.

Definition tag (e : Element) : string :=
  match e with Elem t _ _ => t end.

Definition text (e : Element) : option string :=
  match e with Elem _ t _ => t end.

Definition children (e : Element) : list Element :=
  match e with Elem _ _ cs => cs end.

(** [e.find(tag)]: the first child with that tag *)
Definition find (e : Element) (t : string) : option Element :=
  List.find (fun c => String.eqb (tag c) t) (children e).

(** [e.findall(tag)]: the children with that tag, in document order *)
Definition findall (e : Element) (t : string) : list Element :=
  List.filter (fun c => String.eqb (tag c) t) (children e).

(** Truth value of [e.text]: present and not empty *)
Definition truthy_text (e : Element) : option string :=
  match text e with
  | Some s => if PyStr.is_empty s then None else Some s
  | None => None
  end.

End ET.

(** ** The file tree and [pathlib] *)

Inductive Node : Type :=
| File (content : option Element)
| Dir (entries : list (string * Node)).

Definition Path : Type := list string.

Module Pathlib.

(** [p / name] *)
Definition child (p : Path) (name : string) : Path := p ++ [name].

(** [p.name] and [p.parent] *)
Definition name (p : Path) : string := List.last p "".
Definition parent (p : Path) : Path := List.removelast p.

Fixpoint assoc (name : string) (es : list (string * Node)) : option Node :=
  match es with
  | [] => None
  | (n, x) :: es' => if String.eqb n name then Some x else assoc name es'
  end.

Fixpoint lookup (n : Node) (p : Path) : option Node :=
  match p with
  | [] => Some n
  | c :: p' =>
      match n with
      | Dir es =>
          match assoc c es with
          | Some n' => lookup n' p'
          | None => None
          end
      | File _ => None
      end
  end.

Definition is_dir_node (n : Node) : bool :=
  match n with Dir _ => true | File _ => false end.

(** The order of paths: component by component *)
Fixpoint path_lt (p q : Path) : bool :=
  match p, q with
  | [], [] => false
  | [], _ :: _ => true
  | _ :: _, [] => false
  | a :: p', b :: q' =>
      if String.eqb a b then path_lt p' q' else PyStr.lt a b
  end.

(** The paths a [rglob("*" + ext)] yields below the node [n] found at
    [base]: the matching entries of the directory in listing order, then
    the same for each subdirectory in listing order; nothing below a
    file. *)
Fixpoint walk (ext : string) (base : Path) (n : Node) {struct n}
  : list Path :=
  match n with
  | File _ => []
  | Dir es =>
      map (fun e => child base (fst e))
          (filter (fun e => PyStr.endswith (fst e) ext) es)
      ++ (fix below (l : list (string * Node)) : list Path :=
            match l with
            | [] => []
            | (name, sub) :: l' => walk ext (child base name) sub ++ below l'
            end) es
  end.

Section OnTree.
Variable fs : Node.

(** [p.exists()] and [p.is_dir()] *)
Definition exists_ (p : Path) : bool :=
  match lookup fs p with Some _ => true | None => false end.

Definition is_dir (p : Path) : bool :=
  match lookup fs p with Some n => is_dir_node n | None => false end.

(** [p.iterdir()]; it raises when [p] is not a directory *)
Definition iterdir (p : Path) : option (list Path) :=
  match lookup fs p with
  | Some (Dir es) => Some (map (fun e => child p (fst e)) es)
  | _ => None
  end.

(** [p.glob("*" + ext)]: nothing when [p] is not a directory *)
Definition glob (p : Path) (ext : string) : list Path :=
  match lookup fs p with
  | Some (Dir es) =>
      map (fun e => child p (fst e))
          (filter (fun e => PyStr.endswith (fst e) ext) es)
  | _ => []
  end.

(** [p.rglob("*" + ext)]: nothing when [p] is not a directory *)
Definition rglob (p : Path) (ext : string) : list Path :=
  match lookup fs p with
  | Some n => walk ext p n
  | None => []
  end.

(** [ET.parse(p).getroot()]; it raises unless [p] is a well-formed
    file *)
Definition parse (p : Path) : option Element :=
  match lookup fs p with
  | Some (File (Some root)) => Some root
  | _ => None
  end.
End OnTree.

End Pathlib.

(** ** The data classes *)

Record Season : Type := mkSeason {
  season_number : N;
  episode_count : nat;
  season_poster_path : option Path
}.

Record MediaItem : Type := mkMediaItem {
  title : string;
  year : option string;
  description : option string;
  media_type : string;
  poster_path : option Path;
  nfo_path : Path;
  audio_tracks : list string;
  subtitle_tracks : list string;
  seasons : option (list Season)
}.

(** [a or b] on optional strings: [a] unless it is [None] or empty *)
Definition or_else (a b : option string) : option string :=
  match a with
  | Some s => if PyStr.is_empty s then b else a
  | None => b
  end.

(** The list with the value of an optional, if any *)
Definition option_list {A : Type} (o : option A) : list A :=
  match o with Some x => [x] | None => [] end.

(** [x in l] on a list of strings *)
Definition str_in (x : string) (l : list string) : bool :=
  existsb (String.eqb x) l.

(** [y not in acc] *)
Definition fresh (acc : list string) (y : string) : bool :=
  negb (str_in y acc).

(** ** [JellyfinScanner]: the functions that read one element *)

Definition language_map : list (string * string) :=
  [ ("ger", "German"); ("deu", "German"); ("de", "German");
    ("eng", "English"); ("en", "English");
    ("fra", "French"); ("fre", "French"); ("fr", "French");
    ("spa", "Spanish"); ("es", "Spanish");
    ("ita", "Italian"); ("it", "Italian");
    ("jpn", "Japanese"); ("ja", "Japanese");
    ("rus", "Russian"); ("ru", "Russian");
    ("chi", "Chinese"); ("zh", "Chinese");
    ("por", "Portuguese"); ("pt", "Portuguese");
    ("pol", "Polish"); ("pl", "Polish");
    ("tur", "Turkish"); ("tr", "Turkish");
    ("ara", "Arabic"); ("ar", "Arabic") ].

(** [d.get(k)] on a dictionary written as its list of items *)
Fixpoint dict_get (d : list (string * string)) (k : string) : option string :=
  match d with
  | [] => None
  | (k', v) :: d' => if String.eqb k' k then Some v else dict_get d' k
  end.

Definition _convert_language_code (code : string) : string :=
  let code_lower := PyStr.lower code in
  match dict_get language_map code_lower with
  | Some name => name
  | None => PyStr.capitalize code
  end.

Definition _get_text (root : Element) (tag : string) : option string :=
  match ET.find root tag with
  | Some element =>
      match ET.truthy_text element with
      | Some t => Some (PyStr.strip t)
      | None => None
      end
  | None => None
  end.

(** The [audio] or [subtitle] elements the two extraction loops run over:
    those of the first [streamdetails] of the first [fileinfo]. *)
Definition stream_elements (root : Element) (kind : string) : list Element :=
  match ET.find root "fileinfo" with
  | Some fileinfo =>
      match ET.find fileinfo "streamdetails" with
      | Some streamdetails => ET.findall streamdetails kind
      | None => []
      end
  | None => []
  end.

(** The text of a child that is there and whose text is not empty *)
Definition field (e : Element) (tag : string) : option string :=
  match ET.find e tag with
  | Some x => ET.truthy_text x
  | None => None
  end.

(** The body of the loop of [_extract_audio_tracks] up to the test of
    [parts]: the list [parts] built for one [audio] element. *)
Definition audio_parts (audio : Element) : list string :=
  let parts := [] in
  let parts :=
    match field audio "language" with
    | Some t => parts ++ [_convert_language_code (PyStr.strip t)]
    | None => parts
    end in
  let parts :=
    match field audio "codec" with
    | Some t => parts ++ [PyStr.upper (PyStr.strip t)]
    | None => parts
    end in
  let parts :=
    match field audio "channels" with
    | Some t =>
        let ch := PyStr.strip t in
        if PyStr.is_empty ch then parts else parts ++ [(ch ++ "ch")%string]
    | None => parts
    end in
  parts.

Definition _extract_audio_tracks (root : Element) : list string :=
  fold_left
    (fun audio_tracks audio =>
       let parts := audio_parts audio in
       match parts with
       | [] => audio_tracks
       | _ :: _ => audio_tracks ++ [PyStr.join " " parts]
       end)
    (stream_elements root "audio") [].

Definition _extract_subtitle_tracks (root : Element) : list string :=
  fold_left
    (fun subtitle_tracks subtitle =>
       match field subtitle "language" with
       | Some t =>
           let lang := _convert_language_code (PyStr.strip t) in
           if str_in lang subtitle_tracks then subtitle_tracks
           else subtitle_tracks ++ [lang]
       | None => subtitle_tracks
       end)
    (stream_elements root "subtitle") [].

(** ** The season pattern *)

Fixpoint drop (n : nat) (s : string) : string :=
  match n, s with
  | O, _ => s
  | S _, EmptyString => EmptyString
  | S n', String _ s' => drop n' s'
  end.

Fixpoint take_digits (s : string) : string :=
  match s with
  | EmptyString => EmptyString
  | String c s' =>
      if PyStr.isdigit c then String c (take_digits s') else EmptyString
  end.

(** A match of [season\s*(\d+)] that starts at the first character: the
    text of the group.  White space and digits are disjoint, so the greedy
    [\s*] never has to give a character back. *)
Definition season_match_here (s : string) : option string :=
  if PyStr.startswith s "season" then
    let digits := take_digits (PyStr.lstrip (drop 6 s)) in
    if PyStr.is_empty digits then None else Some digits
  else None.

(** [re.search(r'season\s*(\d+)', s)]: the leftmost match, its group *)
Fixpoint season_search (s : string) : option string :=
  match season_match_here s with
  | Some digits => Some digits
  | None =>
      match s with
      | EmptyString => None
      | String _ s' => season_search s'
      end
  end.

(** ** [JellyfinScanner]: the functions that read the file tree *)

Record JellyfinScanner : Type := mkScanner {
  base_path : Path;
  items : list MediaItem
}.

(** [JellyfinScanner(base_path)] *)
Definition new_scanner (base_path : Path) : JellyfinScanner :=
  mkScanner base_path [].

(** The three lists [scan] sorts the descriptor files into *)
Record NfoLists : Type := mkNfoLists {
  tvshow_nfos : list Path;
  movie_nfos : list Path;
  episode_nfos : list Path
}.

Definition poster_names : list string :=
  ["poster.jpg"; "poster.png"; "folder.jpg"; "folder.png";
   "cover.jpg"; "cover.png"].

Definition image_exts : list string := [".jpg"; ".jpeg"; ".png"].

Section Scanner.
Variable fs : Node.

(** [for name in names: poster = directory / name;
     if poster.exists(): return poster] *)
Fixpoint first_existing (directory : Path) (names : list string)
  : option Path :=
  match names with
  | [] => None
  | name :: names' =>
      let poster := Pathlib.child directory name in
      if Pathlib.exists_ fs poster then Some poster
      else first_existing directory names'
  end.

(** [for ext in exts: images = list(directory.glob(f'*{ext}'));
     if images: return images[0]] *)
Fixpoint first_image (directory : Path) (exts : list string)
  : option Path :=
  match exts with
  | [] => None
  | ext :: exts' =>
      match Pathlib.glob fs directory ext with
      | image :: _ => Some image
      | [] => first_image directory exts'
      end
  end.

Definition _find_poster (directory : Path) : option Path :=
  match first_existing directory poster_names with
  | Some poster => Some poster
  | None => first_image directory image_exts
  end.

Definition _find_season_poster (season_dir : Path) (season_num : N)
    (show_dir : Path) : option Path :=
  let nn := PyStr.str_of_int_02d season_num in
  let n := PyStr.str_of_int season_num in
  let show_poster_names :=
    [ "season" ++ nn ++ "-poster.jpg"; "season" ++ nn ++ "-poster.png";
      "season" ++ n ++ "-poster.jpg"; "season" ++ n ++ "-poster.png";
      "season-" ++ nn ++ "-poster.jpg"; "season-" ++ nn ++ "-poster.png"
    ]%string in
  match first_existing show_dir show_poster_names with
  | Some poster => Some poster
  | None =>
      let season_poster_names :=
        [ "poster.jpg"; "poster.png"; "folder.jpg"; "folder.png";
          "season" ++ nn ++ "-poster.jpg"; "season" ++ nn ++ "-poster.png"
        ]%string in
      match first_existing season_dir season_poster_names with
      | Some poster => Some poster
      | None => first_image season_dir image_exts
      end
  end.

(** [item.is_dir() and item.name.lower().startswith('season')] *)
Definition is_season_dir (item : Path) : bool :=
  Pathlib.is_dir fs item
  && PyStr.startswith (PyStr.lower (Pathlib.name item)) "season".

(** The body of the second loop of [_collect_season_info] *)
Definition add_season (show_dir : Path) (seasons : list Season)
    (season_dir : Path) : list Season :=
  let season_name := PyStr.lower (Pathlib.name season_dir) in
  match season_search season_name with
  | None => seasons
  | Some digits =>
      let season_num := PyStr.int_of_digits digits in
      let episode_nfos :=
        filter
          (fun f =>
             negb (PyStr.startswith (PyStr.lower (Pathlib.name f)) "season"))
          (Pathlib.glob fs season_dir ".nfo") in
      let episode_count := List.length episode_nfos in
      let season_poster :=
        _find_season_poster season_dir season_num show_dir in
      seasons ++ [mkSeason season_num episode_count season_poster]
  end.

(** [None] when [show_dir.iterdir()] raises *)
Definition _collect_season_info (show_dir : Path) : option (list Season) :=
  match Pathlib.iterdir fs show_dir with
  | None => None
  | Some listing =>
      let season_dirs :=
        fold_left
          (fun season_dirs item =>
             if is_season_dir item then season_dirs ++ [item]
             else season_dirs)
          listing [] in
      let seasons :=
        fold_left (add_season show_dir)
          (PySort.sorted (fun p : Path => p) Pathlib.path_lt false
             season_dirs)
          [] in
      Some (PySort.sorted season_number N.ltb false seasons)
  end.

(** [title or "Unknown"] *)
Definition title_or_unknown (title : option string) : string :=
  match title with
  | Some t => if PyStr.is_empty t then "Unknown" else t
  | None => "Unknown"
  end.

Definition get_description (root : Element) : option string :=
  or_else (_get_text root "plot")
    (or_else (_get_text root "outline") (_get_text root "overview")).

(** [None] when the parser raises *)
Definition _parse_nfo (nfo_path : Path) : option MediaItem :=
  match Pathlib.parse fs nfo_path with
  | None => None
  | Some root =>
      Some (mkMediaItem
              (title_or_unknown (_get_text root "title"))
              (_get_text root "year")
              (get_description root)
              (ET.tag root)
              (_find_poster (Pathlib.parent nfo_path))
              nfo_path
              (_extract_audio_tracks root)
              (_extract_subtitle_tracks root)
              None)
  end.

(** The tracks of the first descriptor of the first season, when the show
    descriptor has none; the tracks stay as they are when that descriptor
    is missing or does not parse. *)
Definition borrow_tracks (show_dir : Path) (first : Season)
    (tracks : list string * list string) : list string * list string :=
  let padded :=
    Pathlib.child show_dir
      ("Season " ++ PyStr.str_of_int_02d (season_number first)) in
  let season_dir :=
    if Pathlib.exists_ fs padded then padded
    else Pathlib.child show_dir
           ("Season " ++ PyStr.str_of_int (season_number first)) in
  if Pathlib.exists_ fs season_dir then
    match Pathlib.glob fs season_dir ".nfo" with
    | episode :: _ =>
        match Pathlib.parse fs episode with
        | Some ep_root =>
            (_extract_audio_tracks ep_root,
             _extract_subtitle_tracks ep_root)
        | None => tracks
        end
    | [] => tracks
    end
  else tracks.

(** [None] when the parser or [_collect_season_info] raises *)
Definition _parse_tvshow_with_seasons (nfo_path : Path)
  : option MediaItem :=
  match Pathlib.parse fs nfo_path with
  | None => None
  | Some root =>
      let audio := _extract_audio_tracks root in
      let subtitles := _extract_subtitle_tracks root in
      let poster := _find_poster (Pathlib.parent nfo_path) in
      match _collect_season_info (Pathlib.parent nfo_path) with
      | None => None
      | Some seasons =>
          let tracks :=
            match audio, subtitles, seasons with
            | [], [], first :: _ =>
                borrow_tracks (Pathlib.parent nfo_path) first
                  (audio, subtitles)
            | _, _, _ => (audio, subtitles)
            end in
          Some (mkMediaItem
                  (title_or_unknown (_get_text root "title"))
                  (_get_text root "year")
                  (get_description root)
                  "tvshow"
                  poster
                  nfo_path
                  (fst tracks)
                  (snd tracks)
                  (Some seasons))
      end
  end.

(** The body of the first loop of [scan] *)
Definition classify (lists : NfoLists) (nfo_file : Path) : NfoLists :=
  let filename := PyStr.lower (Pathlib.name nfo_file) in
  if String.eqb filename "tvshow.nfo" then
    mkNfoLists (tvshow_nfos lists ++ [nfo_file]) (movie_nfos lists)
      (episode_nfos lists)
  else if PyStr.startswith filename "s" && PyStr.endswith filename ".nfo"
  then
    mkNfoLists (tvshow_nfos lists) (movie_nfos lists)
      (episode_nfos lists ++ [nfo_file])
  else
    match Pathlib.parse fs nfo_file with
    | Some root =>
        if String.eqb (ET.tag root) "movie" then
          mkNfoLists (tvshow_nfos lists) (movie_nfos lists ++ [nfo_file])
            (episode_nfos lists)
        else if String.eqb (ET.tag root) "episodedetails" then
          mkNfoLists (tvshow_nfos lists) (movie_nfos lists)
            (episode_nfos lists ++ [nfo_file])
        else lists
    | None => lists
    end.

(** The loops that parse: an item is appended when the parser gives one *)
Definition parse_all (parser : Path -> option MediaItem)
    (items : list MediaItem) (nfos : list Path) : list MediaItem :=
  fold_left
    (fun items nfo_file =>
       match parser nfo_file with
       | Some item => items ++ [item]
       | None => items
       end)
    nfos items.

(** [scan]: the scanner after the call and the list it returns *)
Definition scan (self : JellyfinScanner)
  : JellyfinScanner * list MediaItem :=
  let nfo_files := Pathlib.rglob fs (base_path self) ".nfo" in
  let lists := fold_left classify nfo_files (mkNfoLists [] [] []) in
  let items := parse_all _parse_nfo (items self) (movie_nfos lists) in
  let items :=
    parse_all _parse_tvshow_with_seasons items (tvshow_nfos lists) in
  (mkScanner (base_path self) items, items).

End Scanner.

(** ** [CatalogSorter] *)

Definition ARTICLES : list string :=
  [ "der"; "die"; "das"; "ein"; "eine";
    "the"; "a"; "an";
    "le"; "la"; "les"; "un"; "une"; "des";
    "el"; "la"; "los"; "las"; "un"; "una"; "unos"; "unas" ].

Definition _get_sort_key (title : string) : string :=
  if PyStr.is_empty title then ""
  else
    let title_lower := PyStr.strip (PyStr.lower title) in
    let words := PyStr.split title_lower in
    match words with
    | [] => title_lower
    | first_word :: rest =>
        if str_in first_word ARTICLES && (1 <? List.length words)%nat
        then PyStr.join " " rest
        else title_lower
    end.

Definition sort_by_title (items : list MediaItem) : list MediaItem :=
  PySort.sorted (fun x => _get_sort_key (title x)) PyStr.lt false items.

(** [x.year or "0000"] *)
Definition year_or_0000 (x : MediaItem) : string :=
  match year x with
  | Some y => if PyStr.is_empty y then "0000" else y
  | None => "0000"
  end.

Definition year_key (x : MediaItem) : string * string :=
  (year_or_0000 x, _get_sort_key (title x)).

Definition sort_by_year (items : list MediaItem) : list MediaItem :=
  PySort.sorted year_key PySort.pair_lt true items.

Definition sort_by_type (items : list MediaItem) : list MediaItem :=
  PySort.sorted (fun x => (media_type x, _get_sort_key (title x)))
    PySort.pair_lt false items.

(** ** Track extraction as the specification words it *)

(** Order-preserving removal of duplicates: every name stays at the place
    where it is first seen, its later occurrences go. *)
Fixpoint first_seen (names : list string) : list string :=
  match names with
  | [] => []
  | x :: rest =>
      x :: filter (fun y => negb (String.eqb y x)) (first_seen rest)
  end.

(** The normalized language of a [subtitle] element that has one *)
Definition subtitle_name (subtitle : Element) : option string :=
  option_map (fun t => _convert_language_code (PyStr.strip t))
    (field subtitle "language").








(** The number a season directory yields, when its name has one *)
Definition season_number_of (season_dir : Path) : option N :=
  option_map PyStr.int_of_digits
    (season_search (PyStr.lower (Pathlib.name season_dir))).

(** ** The classes of descriptor files *)

(** The file is named [tvshow.nfo], in any case of the letters *)
Definition is_tvshow_nfo (nfo_file : Path) : bool :=
  String.eqb (PyStr.lower (Pathlib.name nfo_file)) "tvshow.nfo".

(** The name has the shape of an episode descriptor: it starts with [s] *)
Definition is_episode_name (nfo_file : Path) : bool :=
  PyStr.startswith (PyStr.lower (Pathlib.name nfo_file)) "s"
  && PyStr.endswith (PyStr.lower (Pathlib.name nfo_file)) ".nfo".

(** The file goes to the movie descriptors: neither of the two names, and
    a root element [movie] *)
Definition is_movie_nfo (fs : Node) (nfo_file : Path) : bool :=
  negb (is_tvshow_nfo nfo_file) && negb (is_episode_name nfo_file)
  && match Pathlib.parse fs nfo_file with
     | Some root => String.eqb (ET.tag root) "movie"
     | None => false
     end.

Definition is_some {A : Type} (o : option A) : bool :=
  match o with Some _ => true | None => false end.

(** ** A small library, for the examples *)

Definition image : Node := File None.

Definition artwork_tree : Node :=
  Dir [ ("show",
         Dir [ ("banner.jpg", image); ("folder.jpg", image);
               ("poster.jpg", image) ]);
        ("film", Dir [ ("notes.txt", image); ("b.png", image);
                       ("a.jpeg", image); ("c.jpeg", image) ]);
        ("bare", Dir [ ("notes.txt", image) ]) ].

Definition episode : Node := File (Some (Elem "episodedetails" None [])).

(** A show with two directories for its first season *)
Definition repeated_season_tree : Node :=
  Dir [ ("show",
         Dir [ ("tvshow.nfo", File (Some (Elem "tvshow" None [])));
               ("Season 1", Dir [ ("S01E01.nfo", episode) ]);
               ("Season 01", Dir []);
               ("Extras", Dir []) ]) ].

(** A library in which the show is listed before the film, with a show
    descriptor under another name and an empty directory *)
Definition library_tree : Node :=
  Dir [ ("lib",
         Dir [ ("show",
                Dir [ ("tvshow.nfo",
                       File (Some (Elem "tvshow" None
                                     [Elem "title" (Some "Dark") []])));
                      ("Season 1", Dir [ ("S01E01.nfo", episode) ]) ]);
               ("film",
                Dir [ ("movie.nfo",
                       File (Some (Elem "movie" None
                                     [Elem "title" (Some "Alien") []])));
                      ("broken.nfo", File None) ]) ]);
        ("other",
         Dir [ ("myshow.nfo", File (Some (Elem "tvshow" None []))) ]);
        ("empty", Dir []) ].

(** A directory that lists a show descriptor before a movie descriptor *)
Definition mixed_tree : Node :=
  Dir [ ("mixed",
         Dir [ ("tvshow.nfo",
                File (Some (Elem "tvshow" None
                              [Elem "title" (Some "Dark") []])));
               ("alien.nfo",
                File (Some (Elem "movie" None
                              [Elem "title" (Some "Alien") []]))) ]) ].

(** Movies that have a title and a year only *)
Definition movie (title : string) (year : option string) : MediaItem :=
  mkMediaItem title year None "movie" None [] [] [] None.

(** A movie descriptor whose name starts with an S *)
Definition scarface_tree : Node :=
  Dir [ ("films",
         Dir [ ("Scarface.nfo",
                File (Some (Elem "movie" None
                              [Elem "title" (Some "Scarface") []]))) ]) ].

(** A show with a poster for its first season in both directories *)
Definition season_art_tree : Node :=
  Dir [ ("show",
         Dir [ ("tvshow.nfo", File (Some (Elem "tvshow" None [])));
               ("season01-poster.jpg", image);
               ("Season 01",
                Dir [ ("poster.jpg", image); ("S01E01.nfo", episode) ]);
               ("Season 02",
                Dir [ ("season.nfo", episode); ("S02E01.nfo", episode);
                      ("S02E02.nfo", episode); ("still.png", image) ]);
               ("Season 03", Dir [ ("S03E01.nfo", episode) ]) ]) ].

(** A show whose descriptor has no tracks, with an episode that has *)
Definition borrow_tree : Node :=
  Dir [ ("show",
         Dir [ ("tvshow.nfo",
                File (Some (Elem "tvshow" None
                              [Elem "title" (Some "Dark") []])));
               ("Season 01",
                Dir [ ("S01E01.nfo",
                       File
                         (Some
                            (Elem "episodedetails" None
                               [Elem "fileinfo" None
                                  [Elem "streamdetails" None
                                     [Elem "audio" None
                                        [Elem "language" (Some "ger") []];
                                      Elem "subtitle" None
                                        [Elem "language" (Some "eng") []];
                                      Elem "subtitle" None
                                        [Elem "language" (Some "en") []]
                                     ]]]))) ]) ]) ].

(** ** File trees

    In a file tree the entries of a directory have different names. *)
Fixpoint unique_names (n : Node) : Prop :=
  match n with
  | File _ => True
  | Dir es =>
      NoDup (map fst es)
      /\ (fix all (l : list (string * Node)) : Prop :=
            match l with
            | [] => True
            | (_, sub) :: l' => unique_names sub /\ all l'
            end) es
  end.

(** ** [PDFGenerator]: the data the document is built from

    The document itself is built by [reportlab] and the images are read by
    [PIL]; what is embedded here is what [pdf_generator.py] computes before
    it hands over to them: the text of a description, the rows of the grid
    of seasons and the counts of the statistics table. *)

Module PDFGenerator.

(** [s.replace(old, new)] for an [old] of one character *)
Fixpoint replace_char (old : ascii) (new : string) (s : string) : string :=
  match s with
  | EmptyString => EmptyString
  | String c s' =>
      if Ascii.eqb c old then (new ++ replace_char old new s')%string
      else String c (replace_char old new s')
  end.

(** [s[:n]] *)
Fixpoint take (n : nat) (s : string) : string :=
  match n, s with
  | O, _ => EmptyString
  | S _, EmptyString => EmptyString
  | S n', String c s' => String c (take n' s')
  end.

(** The text of the paragraph that [_get_description] returns *)
Definition _get_description (description : option string) : string :=
  match description with
  | None => "<i>No description available</i>"
  | Some d =>
      if PyStr.is_empty d then "<i>No description available</i>"
      else
        let desc_text := take 500 d in
        let desc_text :=
          if (500 <? String.length d)%nat then (desc_text ++ "...")%string
          else desc_text in
        replace_char ">" "&gt;"
          (replace_char "<" "&lt;" (replace_char "&" "&amp;" desc_text))
  end.

(** A cell of the grid of seasons: the cell [_create_season_cell] builds
    for a season, or the empty string that fills the last row. *)
Inductive Cell : Type :=
| SeasonCell (season : Season)
| EmptyCell.

Definition seasons_per_row : nat := 3.

(** The body of the loop of [_add_season_overview], on the pair
    [(season_rows, current_row)] *)
Definition add_cell (state : list (list Cell) * list Cell) (season : Season)
  : list (list Cell) * list Cell :=
  let current_row := snd state ++ [SeasonCell season] in
  if (List.length current_row =? seasons_per_row)%nat
  then (fst state ++ [current_row], [])
  else (fst state, current_row).

(** [while len(current_row) < seasons_per_row: current_row.append('')];
    [turns] bounds the number of turns of the loop. *)
Fixpoint fill_row (turns : nat) (current_row : list Cell) : list Cell :=
  if (List.length current_row <? seasons_per_row)%nat then
    match turns with
    | O => current_row
    | S turns' => fill_row turns' (current_row ++ [EmptyCell])
    end
  else current_row.

(** The rows [_add_season_overview] makes the table of *)
Definition season_rows (seasons : list Season) : list (list Cell) :=
  let state := fold_left add_cell seasons ([], []) in
  match snd state with
  | [] => fst state
  | _ :: _ => fst state ++ [fill_row seasons_per_row (snd state)]
  end.

(** The counts of [_add_statistics] *)
Definition count_movies (items : list MediaItem) : nat :=
  List.length
    (filter (fun item => String.eqb (media_type item) "movie") items).

Definition count_shows (items : list MediaItem) : nat :=
  List.length
    (filter (fun item => String.eqb (media_type item) "tvshow") items).

(** The rows of the statistics table *)
Definition statistics_data (items : list MediaItem) : list (list string) :=
  [ ["Category"; "Count"];
    ["Movies"; PyStr.str_of_int (N.of_nat (count_movies items))];
    ["TV Shows"; PyStr.str_of_int (N.of_nat (count_shows items))];
    ["Total"; PyStr.str_of_int (N.of_nat (List.length items))] ].

End PDFGenerator.

(** * Properties *)

Example lower_ex : PyStr.lower "The MATRIX 2" = "the matrix 2".
Proof. reflexivity. Qed.

Example capitalize_ex : PyStr.capitalize "fooBAR" = "Foobar".
Proof. reflexivity. Qed.

Example strip_ex : PyStr.strip "  a  b   " = "a  b".
Proof. reflexivity. Qed.

Example split_ex : PyStr.split "  the   big sleep " = ["the"; "big"; "sleep"].
Proof. reflexivity. Qed.

Example endswith_ex :
  PyStr.endswith "movie.nfo" ".nfo" = true
  /\ PyStr.endswith "nfo" ".nfo" = false.
Proof. split; reflexivity. Qed.

Example format_ex :
  PyStr.str_of_int_02d 3 = "03" /\ PyStr.str_of_int_02d 12 = "12" /\
  PyStr.str_of_int 0 = "0" /\ PyStr.int_of_digits "007" = 7%N.
Proof. repeat split; reflexivity. Qed.

(** ** Loops that append *)

Section Loops.
Context {A B : Type}.

(** A loop whose body appends [f x] to the accumulator builds the
    concatenation of the [f x]. *)
Lemma fold_left_append (step : list B -> A -> list B) (f : A -> list B) :
  (forall acc x, step acc x = acc ++ f x) ->
  forall l acc, fold_left step l acc = acc ++ flat_map f l.
Proof.
  intros Hstep l. induction l as [|x l IH]; intros acc; simpl.
  - now rewrite app_nil_r.
  - rewrite IH, Hstep. now rewrite <- app_assoc.
Qed.

(** A loop that appends the elements that pass a test is [filter]. *)
Lemma fold_left_filter (keep : A -> bool) (l : list A) (acc : list A) :
  fold_left (fun acc x => if keep x then acc ++ [x] else acc) l acc
  = acc ++ filter keep l.
Proof.
  revert acc. induction l as [|x l IH]; intros acc; simpl.
  - now rewrite app_nil_r.
  - rewrite IH. destruct (keep x); simpl.
    + now rewrite <- app_assoc.
    + reflexivity.
Qed.
End Loops.

Lemma str_in_In (x : string) (l : list string) :
  str_in x l = true <-> In x l.
Proof.
  unfold str_in. rewrite existsb_exists. split.
  - intros [y [Hy Heq]]. apply String.eqb_eq in Heq. now subst.
  - intros H. exists x. split; [assumption | apply String.eqb_refl].
Qed.

Lemma str_in_not_In (x : string) (l : list string) :
  str_in x l = false <-> ~ In x l.
Proof.
  rewrite <- str_in_In. destruct (str_in x l); split; congruence.
Qed.

(** ** The sort key *)

Example sort_key_examples :
  map _get_sort_key
    ["The Matrix"; "A Beautiful Mind"; "Das Boot"; "  the  big   sleep ";
     "The"; "Matrix, The"; ""; "   "]
  = ["matrix"; "beautiful mind"; "boot"; "big sleep";
     "the"; "matrix, the"; ""; ""].
Proof. reflexivity. Qed.

(** C6.  When the lower-cased, trimmed title splits into a first word that
    is an article and at least one more word, the sort key is the remaining
    words joined by single spaces.  For every other title the sort key is
    the lower-cased, trimmed title; a title that is one article alone is
    such a title. *)
Theorem get_sort_key_spec (title : string) :
  let title_lower := PyStr.strip (PyStr.lower title) in
  (forall first rest,
      PyStr.split title_lower = first :: rest ->
      In first ARTICLES -> rest <> [] ->
      _get_sort_key title = PyStr.join " " rest)
  /\ (~ (exists first rest,
            PyStr.split title_lower = first :: rest
            /\ In first ARTICLES /\ rest <> []) ->
      _get_sort_key title = title_lower)
  /\ (forall article,
         In article ARTICLES -> PyStr.split title_lower = [article] ->
         _get_sort_key title = title_lower).
Proof.
  intros title_lower.
  assert (Hother :
    ~ (exists first rest,
          PyStr.split title_lower = first :: rest
          /\ In first ARTICLES /\ rest <> []) ->
    _get_sort_key title = title_lower).
  { intros Hnot. unfold _get_sort_key.
    destruct title as [|c t]; [reflexivity|].
    cbn [PyStr.is_empty]. fold title_lower.
    destruct (PyStr.split title_lower) as [|first rest] eqn:Hsplit;
      [reflexivity|].
    destruct (str_in first ARTICLES) eqn:Hart; [|reflexivity].
    destruct rest as [|w rest]; [reflexivity|].
    exfalso. apply Hnot. exists first, (w :: rest).
    repeat split; [now apply str_in_In | discriminate]. }
  split; [|split].
  - intros first rest Hsplit Hart Hrest. unfold _get_sort_key.
    destruct title as [|c t].
    + cbv in Hsplit. discriminate.
    + cbn [PyStr.is_empty]. fold title_lower. rewrite Hsplit.
      apply str_in_In in Hart. rewrite Hart.
      destruct rest as [|w rest]; [congruence | reflexivity].
  - exact Hother.
  - intros article _ Hsplit. apply Hother.
    intros [first [rest [Hs [_ Hrest]]]].
    rewrite Hsplit in Hs. inversion Hs. congruence.
Qed.

Lemma get_sort_key_spec_witness :
  _get_sort_key "The Matrix" = "matrix"
  /\ _get_sort_key "Matrix" = "matrix"
  /\ _get_sort_key "The" = "the".
Proof.
  split; [|split].
  - apply (proj1 (get_sort_key_spec "The Matrix") "the" ["matrix"]).
    + reflexivity.
    + simpl. tauto.
    + discriminate.
  - apply (proj1 (proj2 (get_sort_key_spec "Matrix"))).
    intros [first [rest [Hs [Hart _]]]].
    vm_compute in Hs. inversion Hs; subst first.
    simpl in Hart. intuition discriminate.
  - apply (proj2 (proj2 (get_sort_key_spec "The")) "the").
    + simpl. tauto.
    + reflexivity.
Defined.

(** ** Language codes *)

Example convert_language_code_examples :
  map _convert_language_code ["ger"; "GER"; "Ger"; "en"; "xyz"; "fooBar"; ""]
  = ["German"; "German"; "German"; "English"; "Xyz"; "Foobar"; ""].
Proof. reflexivity. Qed.

(** The result of [capitalize] has no upper-case letter after the first
    character. *)
Lemma lower_char_not_upper (c : ascii) :
  PyStr.isupper (PyStr.lower_char c) = false.
Proof.
  unfold PyStr.lower_char. destruct (PyStr.isupper c) eqn:Hup; [|exact Hup].
  unfold PyStr.isupper in *. cbv zeta in *.
  apply andb_true_iff in Hup. destruct Hup as [H1 H2].
  apply Nat.leb_le in H1. apply Nat.leb_le in H2.
  rewrite nat_ascii_embedding by lia.
  apply andb_false_iff. right. apply Nat.leb_gt. lia.
Qed.

Lemma lower_no_upper (s : string) :
  PyStr.all_chars (fun c => negb (PyStr.isupper c)) (PyStr.lower s) = true.
Proof.
  induction s as [|c s IH]; [reflexivity|].
  cbn. now rewrite lower_char_not_upper, IH.
Qed.

(** C7.  The conversion of a language code is a function defined on every
    string.  On every code of the table it gives the name of the table, and
    the same name for the upper-cased and the lower-cased code.  A code
    whose lower-cased form is not in the table comes back capitalized: its
    first character upper-cased and the rest lower-cased. *)
Theorem convert_language_code_spec :
  (forall code name,
      In (code, name) language_map ->
      _convert_language_code code = name
      /\ _convert_language_code (PyStr.upper code)
         = _convert_language_code code
      /\ _convert_language_code (PyStr.lower code)
         = _convert_language_code code)
  /\ (forall code,
         dict_get language_map (PyStr.lower code) = None ->
         _convert_language_code code = PyStr.capitalize code
         /\ forall c rest,
              code = String c rest ->
              _convert_language_code code
              = String (PyStr.upper_char c) (PyStr.lower rest)
              /\ PyStr.all_chars (fun x => negb (PyStr.isupper x))
                   (PyStr.lower rest) = true).
Proof.
  split.
  - intros code name Hin. unfold language_map in Hin. simpl in Hin.
    repeat (destruct Hin as [Hin|Hin];
            [inversion Hin; subst; repeat split; reflexivity|]).
    contradiction.
  - intros code Hmiss. unfold _convert_language_code. rewrite Hmiss.
    split; [reflexivity|]. intros c rest ->.
    split; [reflexivity | apply lower_no_upper].
Qed.

Lemma convert_language_code_spec_witness :
  (_convert_language_code "ger" = "German"
   /\ _convert_language_code (PyStr.upper "ger") = _convert_language_code "ger"
   /\ _convert_language_code (PyStr.lower "ger") = _convert_language_code "ger")
  /\ _convert_language_code "kLINGON" = PyStr.capitalize "kLINGON".
Proof.
  split.
  - apply (proj1 convert_language_code_spec "ger" "German").
    simpl. tauto.
  - apply (proj1 (proj2 convert_language_code_spec "kLINGON" eq_refl)).
Defined.

(** ** Subtitle tracks *)

Section FirstSeen.

Lemma filter_twice {A : Type} (f g : A -> bool) (l : list A) :
  filter f (filter g l) = filter (fun y => g y && f y) l.
Proof.
  induction l as [|y l IH]; simpl; [reflexivity|].
  destruct (g y); simpl; [destruct (f y)|]; now rewrite IH.
Qed.


Lemma first_seen_NoDup (names : list string) : NoDup (first_seen names).
Proof.
  induction names as [|y names IH]; simpl; constructor.
  - rewrite filter_In. intros [_ H].
    rewrite String.eqb_refl in H. discriminate.
  - now apply NoDup_filter.
Qed.

(** The loop of [_extract_subtitle_tracks], run over the names. *)
Lemma dedup_loop (names acc : list string) :
  fold_left
    (fun acc x => if str_in x acc then acc else acc ++ [x]) names acc
  = acc ++ filter (fresh acc) (first_seen names).
Proof.
  revert acc. induction names as [|x names IH]; intros acc.
  - simpl. now rewrite app_nil_r.
  - cbn [fold_left first_seen filter]. unfold fresh at 1.
    destruct (str_in x acc) eqn:Hx; cbn [negb].
    + rewrite IH, filter_twice. f_equal. apply filter_ext. intros y.
      unfold fresh. destruct (String.eqb_spec y x) as [->|Hne].
      * now rewrite Hx.
      * reflexivity.
    + rewrite IH, <- app_assoc. cbn [app]. do 2 f_equal.
      rewrite filter_twice. apply filter_ext. intros y.
      unfold fresh, str_in. rewrite existsb_app.
      cbn [existsb]. rewrite orb_false_r, negb_orb.
      now rewrite andb_comm.
Qed.

End FirstSeen.

Lemma subtitle_loop_names (elements : list Element) (acc : list string) :
  fold_left
    (fun subtitle_tracks subtitle =>
       match field subtitle "language" with
       | Some t =>
           let lang := _convert_language_code (PyStr.strip t) in
           if str_in lang subtitle_tracks then subtitle_tracks
           else subtitle_tracks ++ [lang]
       | None => subtitle_tracks
       end)
    elements acc
  = fold_left
      (fun acc x => if str_in x acc then acc else acc ++ [x])
      (flat_map (fun subtitle => option_list (subtitle_name subtitle))
         elements)
      acc.
Proof.
  revert acc. induction elements as [|e elements IH]; intros acc;
    [reflexivity|].
  cbn [fold_left flat_map]. rewrite fold_left_app. unfold subtitle_name at 2.
  destruct (field e "language") as [t|]; cbn; apply IH.
Qed.

Example subtitle_tracks_example :
  let language s := Elem "subtitle" None [Elem "language" (Some s) []] in
  _extract_subtitle_tracks
    (Elem "movie" None
       [Elem "fileinfo" None
          [Elem "streamdetails" None
             [language "eng"; language "ger"; language "ENG";
              language "fra"; language " de "]]])
  = ["English"; "German"; "French"].
Proof. reflexivity. Qed.


(** ** Audio tracks *)







Example audio_tracks_example :
  let audio l := Elem "audio" None l in
  let full :=
    audio [Elem "codec" (Some "ac3") []; Elem "language" (Some "eng") [];
           Elem "channels" (Some " 6 ") []] in
  _extract_audio_tracks
    (Elem "movie" None
       [Elem "fileinfo" None
          [Elem "streamdetails" None
             [full; audio []; audio [Elem "codec" (Some "dts") []];
              audio [Elem "channels" (Some "  ") []; Elem "codec" None []];
              full]]])
  = ["English AC3 6ch"; "DTS"; "English AC3 6ch"].
Proof. reflexivity. Qed.

(** A language or a codec whose text is white space only is not covered by
    the theorem below: the loop tests the channels after stripping them,
    and the language and the codec before. *)
Example audio_tracks_blank_texts :
  map (fun children =>
         _extract_audio_tracks
           (Elem "movie" None
              [Elem "fileinfo" None
                 [Elem "streamdetails" None [Elem "audio" None children]]]))
    [ [Elem "channels" (Some "  ") []];
      [Elem "codec" (Some "  ") []];
      [Elem "language" (Some "  ") []; Elem "channels" (Some "2") []] ]
  = [ []; [""]; [" 2ch"] ].
Proof. reflexivity. Qed.




(** ** Artwork *)

Section Artwork.
Variable fs : Node.

Lemma lookup_app (n : Node) (p q : Path) :
  Pathlib.lookup n (p ++ q)
  = match Pathlib.lookup n p with
    | Some m => Pathlib.lookup m q
    | None => None
    end.
Proof.
  revert n. induction p as [|c p IH]; intros n; [reflexivity|].
  cbn [app Pathlib.lookup]. destruct n as [content|es]; [reflexivity|].
  destruct (Pathlib.assoc c es); [apply IH | reflexivity].
Qed.

(** Nothing exists below a path that does not exist. *)
Lemma missing_child (directory : Path) (name : string) :
  Pathlib.lookup fs directory = None ->
  Pathlib.exists_ fs (Pathlib.child directory name) = false.
Proof.
  intros Hmiss. unfold Pathlib.exists_, Pathlib.child.
  now rewrite lookup_app, Hmiss.
Qed.

Lemma first_existing_first (directory : Path) (before after : list string)
    (name : string) :
  Pathlib.exists_ fs (Pathlib.child directory name) = true ->
  (forall n, In n before ->
             Pathlib.exists_ fs (Pathlib.child directory n) = false) ->
  first_existing fs directory (before ++ name :: after)
  = Some (Pathlib.child directory name).
Proof.
  intros Hname. induction before as [|n before IH]; intros Hbefore.
  - cbn. now rewrite Hname.
  - cbn. rewrite (Hbefore n) by now left.
    apply IH. intros m Hm. apply Hbefore. now right.
Qed.

Lemma first_existing_none (directory : Path) (names : list string) :
  (forall n, In n names ->
             Pathlib.exists_ fs (Pathlib.child directory n) = false) ->
  first_existing fs directory names = None.
Proof.
  induction names as [|n names IH]; intros Hnone; [reflexivity|].
  cbn. rewrite (Hnone n) by now left.
  apply IH. intros m Hm. apply Hnone. now right.
Qed.

Lemma filter_none {A : Type} (f : A -> bool) (l : list A) :
  (forall x, In x l -> f x = false) -> filter f l = [].
Proof.
  induction l as [|x l IH]; intros Hnone; [reflexivity|].
  cbn. rewrite (Hnone x) by now left.
  apply IH. intros y Hy. apply Hnone. now right.
Qed.

(** The first match of a [glob] is the first matching entry of the
    listing. *)
Lemma glob_first (directory : Path) (ext : string)
    (before after : list (string * Node)) (name : string) (node : Node) :
  Pathlib.lookup fs directory = Some (Dir (before ++ (name, node) :: after)) ->
  PyStr.endswith name ext = true ->
  (forall x, In x before -> PyStr.endswith (fst x) ext = false) ->
  exists others,
    Pathlib.glob fs directory ext = Pathlib.child directory name :: others.
Proof.
  intros Hdir Hname Hbefore. unfold Pathlib.glob. rewrite Hdir.
  rewrite filter_app, (filter_none _ before Hbefore).
  cbn [filter fst app]. rewrite Hname. cbn [map fst]. eauto.
Qed.

Lemma glob_none (directory : Path) (ext : string) :
  (forall entries,
      Pathlib.lookup fs directory = Some (Dir entries) ->
      forall x, In x entries -> PyStr.endswith (fst x) ext = false) ->
  Pathlib.glob fs directory ext = [].
Proof.
  intros Hnone. unfold Pathlib.glob.
  destruct (Pathlib.lookup fs directory) as [[content|entries]|];
    try reflexivity.
  now rewrite (filter_none _ entries (Hnone entries eq_refl)).
Qed.

Lemma first_image_first (directory : Path) (before after : list string)
    (ext : string) (image : Path) (others : list Path) :
  Pathlib.glob fs directory ext = image :: others ->
  (forall e, In e before -> Pathlib.glob fs directory e = []) ->
  first_image fs directory (before ++ ext :: after) = Some image.
Proof.
  intros Hext. induction before as [|e before IH]; intros Hbefore.
  - cbn. now rewrite Hext.
  - cbn. rewrite (Hbefore e) by now left.
    apply IH. intros m Hm. apply Hbefore. now right.
Qed.

Lemma first_image_none (directory : Path) (exts : list string) :
  (forall e, In e exts -> Pathlib.glob fs directory e = []) ->
  first_image fs directory exts = None.
Proof.
  induction exts as [|e exts IH]; intros Hnone; [reflexivity|].
  cbn. rewrite (Hnone e) by now left.
  apply IH. intros m Hm. apply Hnone. now right.
Qed.

End Artwork.

Example find_poster_examples :
  _find_poster artwork_tree ["show"] = Some ["show"; "poster.jpg"]
  /\ _find_poster artwork_tree ["film"] = Some ["film"; "a.jpeg"]
  /\ _find_poster artwork_tree ["bare"] = None
  /\ _find_poster artwork_tree ["gone"] = None.
Proof. repeat split; reflexivity. Qed.

(** C10.  [_find_poster] returns the first of the names [poster.jpg],
    [poster.png], [folder.jpg], [folder.png], [cover.jpg], [cover.png] that
    exists in the directory.  When none of them exists it returns the first
    entry of the directory listing with the first of the extensions [.jpg],
    [.jpeg], [.png] that some entry has.  When no entry has one of them it
    returns nothing, and so it does for a directory that is missing. *)
Theorem find_poster_spec (fs : Node) (directory : Path) :
  (forall before name after,
      poster_names = before ++ name :: after ->
      Pathlib.exists_ fs (Pathlib.child directory name) = true ->
      (forall n, In n before ->
                 Pathlib.exists_ fs (Pathlib.child directory n) = false) ->
      _find_poster fs directory = Some (Pathlib.child directory name))
  /\ ((forall n, In n poster_names ->
                 Pathlib.exists_ fs (Pathlib.child directory n) = false) ->
      forall exts_before ext exts_after before name node after,
        image_exts = exts_before ++ ext :: exts_after ->
        Pathlib.lookup fs directory
        = Some (Dir (before ++ (name, node) :: after)) ->
        (forall e x, In e exts_before ->
                     In x (before ++ (name, node) :: after) ->
                     PyStr.endswith (fst x) e = false) ->
        PyStr.endswith name ext = true ->
        (forall x, In x before -> PyStr.endswith (fst x) ext = false) ->
        _find_poster fs directory = Some (Pathlib.child directory name))
  /\ ((forall n, In n poster_names ->
                 Pathlib.exists_ fs (Pathlib.child directory n) = false) ->
      (forall entries e x,
          Pathlib.lookup fs directory = Some (Dir entries) ->
          In e image_exts -> In x entries ->
          PyStr.endswith (fst x) e = false) ->
      _find_poster fs directory = None)
  /\ (Pathlib.lookup fs directory = None ->
      _find_poster fs directory = None).
Proof.
  split; [|split; [|split]].
  - intros before name after Hnames Hname Hbefore.
    unfold _find_poster. rewrite Hnames.
    now rewrite (first_existing_first fs directory before after name).
  - intros Hcanon exts_before ext exts_after before name node after
      Hexts Hdir Hearlier Hname Hbefore.
    unfold _find_poster.
    rewrite (first_existing_none fs directory poster_names Hcanon), Hexts.
    destruct (glob_first fs directory ext before after name node
                Hdir Hname Hbefore) as [others Hglob].
    apply (first_image_first fs directory exts_before exts_after ext
             _ others Hglob).
    intros e He. apply glob_none. intros entries Hentries x Hx.
    rewrite Hdir in Hentries. inversion Hentries; subst entries.
    now apply Hearlier.
  - intros Hcanon Hnone. unfold _find_poster.
    rewrite (first_existing_none fs directory poster_names Hcanon).
    apply first_image_none. intros e He. apply glob_none.
    intros entries Hentries x Hx. now apply (Hnone entries).
  - intros Hmiss. unfold _find_poster.
    rewrite first_existing_none
      by (intros n _; now apply missing_child).
    apply first_image_none. intros e _. unfold Pathlib.glob.
    now rewrite Hmiss.
Qed.

Lemma find_poster_spec_witness :
  _find_poster artwork_tree ["show"] = Some ["show"; "poster.jpg"]
  /\ _find_poster artwork_tree ["film"] = Some ["film"; "a.jpeg"]
  /\ _find_poster artwork_tree ["bare"] = None
  /\ _find_poster artwork_tree ["gone"] = None.
Proof.
  assert (Hno : forall d,
             d = "film" \/ d = "bare" ->
             forall n, In n poster_names ->
                       Pathlib.exists_ artwork_tree (Pathlib.child [d] n)
                       = false).
  { intros d [->| ->] n Hn; cbn in Hn;
      repeat (destruct Hn as [<-|Hn]; [reflexivity|]); contradiction. }
  split; [|split; [|split]].
  - apply (proj1 (find_poster_spec artwork_tree ["show"])
             [] "poster.jpg"
             ["poster.png"; "folder.jpg"; "folder.png";
              "cover.jpg"; "cover.png"]).
    + reflexivity.
    + reflexivity.
    + intros n [].
  - apply (proj1 (proj2 (find_poster_spec artwork_tree ["film"]))
             (Hno "film" (or_introl eq_refl))
             [".jpg"] ".jpeg" [".png"]
             [("notes.txt", image); ("b.png", image)] "a.jpeg" image
             [("c.jpeg", image)]).
    + reflexivity.
    + reflexivity.
    + intros e x [<-|[]] Hx. cbn in Hx.
      repeat (destruct Hx as [<-|Hx]; [reflexivity|]). contradiction.
    + reflexivity.
    + intros x Hx. cbn in Hx.
      repeat (destruct Hx as [<-|Hx]; [reflexivity|]). contradiction.
  - apply (proj1 (proj2 (proj2 (find_poster_spec artwork_tree ["bare"])))
             (Hno "bare" (or_intror eq_refl))).
    intros entries e x Hentries He Hx. cbv in Hentries.
    inversion Hentries; subst entries. cbn in He, Hx.
    destruct Hx as [<-|[]].
    repeat (destruct He as [<-|He]; [reflexivity|]). contradiction.
  - apply (proj2 (proj2 (proj2 (find_poster_spec artwork_tree ["gone"])))).
    reflexivity.
Defined.

(** ** Sorting *)

Section SortedProperties.
Context {A K : Type}.
Variable key : A -> K.
Variable lt : K -> K -> bool.

Lemma insert_perm (x : A) (l : list A) :
  Permutation (PySort.insert key lt x l) (x :: l).
Proof.
  induction l as [|y l IH]; cbn; [reflexivity|].
  destruct (lt (key y) (key x)); [|reflexivity].
  rewrite IH. apply perm_swap.
Qed.

Lemma stable_sort_perm (l : list A) :
  Permutation (PySort.stable_sort key lt l) l.
Proof.
  induction l as [|x l IH]; cbn; [reflexivity|].
  fold (PySort.stable_sort key lt l).
  rewrite insert_perm. now constructor.
Qed.

Lemma sorted_perm (reverse : bool) (l : list A) :
  Permutation (PySort.sorted key lt reverse l) l.
Proof.
  unfold PySort.sorted. destruct reverse.
  - rewrite <- Permutation_rev, stable_sort_perm.
    symmetry. apply Permutation_rev.
  - apply stable_sort_perm.
Qed.

Hypothesis lt_asym : forall a b, lt a b = true -> lt b a = false.
Hypothesis le_trans :
  forall a b c, lt b a = false -> lt c b = false -> lt c a = false.

Lemma insert_sorted (x : A) (l : list A) :
  StronglySorted (PySort.not_after key lt) l ->
  StronglySorted (PySort.not_after key lt) (PySort.insert key lt x l).
Proof.
  induction l as [|y l IH]; intros Hsorted; cbn.
  - constructor; constructor.
  - apply StronglySorted_inv in Hsorted. destruct Hsorted as [Hl Hy].
    destruct (lt (key y) (key x)) eqn:Hyx.
    + constructor; [now apply IH|].
      apply (Permutation_Forall (P := PySort.not_after key lt y))
        with (x := x :: l); [symmetry; apply insert_perm|].
      constructor; [now apply lt_asym | assumption].
    + constructor; [now constructor|].
      constructor; [exact Hyx|].
      apply Forall_impl with (P := PySort.not_after key lt y); [|assumption].
      intros z Hz. unfold PySort.not_after in *.
      now apply le_trans with (b := key y).
Qed.

Lemma stable_sort_sorted (l : list A) :
  StronglySorted (PySort.not_after key lt) (PySort.stable_sort key lt l).
Proof.
  induction l as [|x l IH]; cbn; [constructor|].
  now apply insert_sorted.
Qed.
End SortedProperties.

Lemma StronglySorted_map {A B : Type} (f : A -> B) (R : B -> B -> Prop)
    (l : list A) :
  StronglySorted (fun x y => R (f x) (f y)) l -> StronglySorted R (map f l).
Proof.
  induction 1 as [|x l Hl IH Hx]; cbn; constructor; [assumption|].
  now apply Forall_map.
Qed.

(** ** Seasons *)

Example season_search_examples :
  map season_number_of
    [["show"; "Season 3"]; ["show"; "season03"]; ["show"; "Extras"];
     ["show"; "Seasons"]; ["show"; "SEASON  12 (2019)"];
     ["show"; "Season one, season 2"]]
  = [Some 3%N; Some 3%N; None; None; Some 12%N; Some 2%N].
Proof. reflexivity. Qed.

Section Seasons.
Variable fs : Node.

(** The second loop appends one season for each directory whose name
    yields a number, with that number. *)
Lemma add_season_numbers (show_dir : Path) (dirs : list Path) :
  map season_number (fold_left (add_season fs show_dir) dirs [])
  = flat_map (fun p => option_list (season_number_of p)) dirs.
Proof.
  rewrite fold_left_append
    with (f := fun p =>
                 match season_number_of p with
                 | Some n =>
                     [mkSeason n
                        (List.length
                           (filter
                              (fun f =>
                                 negb (PyStr.startswith
                                         (PyStr.lower (Pathlib.name f))
                                         "season"))
                              (Pathlib.glob fs p ".nfo")))
                        (_find_season_poster fs p n show_dir)]
                 | None => []
                 end).
  - cbn [app]. induction dirs as [|p dirs IH]; [reflexivity|].
    cbn [flat_map]. rewrite map_app, IH. f_equal.
    destruct (season_number_of p); reflexivity.
  - intros acc p. unfold add_season, season_number_of.
    destruct (season_search (PyStr.lower (Pathlib.name p))); cbn.
    + reflexivity.
    + now rewrite app_nil_r.
Qed.
End Seasons.

(** C2, as the code has it.  For every show directory the seasons come
    back sorted by number, ascending, with one record for each season
    subdirectory whose name yields a number: subdirectories that yield the
    same number all keep their record. *)
Theorem collect_season_info_sorted (fs : Node) (show_dir : Path)
    (listing : list Path) :
  Pathlib.iterdir fs show_dir = Some listing ->
  exists seasons,
    _collect_season_info fs show_dir = Some seasons
    /\ StronglySorted N.le (map season_number seasons)
    /\ Permutation (map season_number seasons)
         (flat_map (fun p => option_list (season_number_of p))
            (filter (is_season_dir fs) listing)).
Proof.
  intros Hlisting. unfold _collect_season_info. rewrite Hlisting.
  eexists. split; [reflexivity|]. split.
  - apply StronglySorted_map.
    eapply StronglySorted_ind
      with (P := StronglySorted
                   (fun x y => (season_number x <= season_number y)%N));
      [constructor | |
       apply (stable_sort_sorted season_number N.ltb)].
    + intros a l _ IH Ha. constructor; [exact IH|].
      apply Forall_impl with (2 := Ha). intros b Hb.
      now apply N.ltb_ge in Hb.
    + intros a b Hab. apply N.ltb_lt in Hab. apply N.ltb_ge. lia.
    + intros a b c Hba Hcb. apply N.ltb_ge in Hba, Hcb.
      apply N.ltb_ge. lia.
  - rewrite (Permutation_map season_number (sorted_perm _ _ false _)).
    rewrite add_season_numbers.
    apply Permutation_flat_map.
    rewrite sorted_perm, fold_left_filter. reflexivity.
Qed.

Lemma collect_season_info_sorted_witness :
  exists seasons,
    _collect_season_info repeated_season_tree ["show"] = Some seasons
    /\ StronglySorted N.le (map season_number seasons)
    /\ Permutation (map season_number seasons)
         (flat_map (fun p => option_list (season_number_of p))
            (filter (is_season_dir repeated_season_tree)
               [["show"; "tvshow.nfo"]; ["show"; "Season 1"];
                ["show"; "Season 01"]; ["show"; "Extras"]])).
Proof.
  apply (collect_season_info_sorted repeated_season_tree ["show"]).
  reflexivity.
Defined.

(** C2, as the specification has it, fails: two directories that yield the
    number 1 give two seasons with the number 1. *)
Lemma collect_season_info_repeats_number :
  _collect_season_info repeated_season_tree ["show"]
  = Some [mkSeason 1 0 None; mkSeason 1 1 None]
  /\ ~ (forall seasons,
           _collect_season_info repeated_season_tree ["show"] = Some seasons ->
           NoDup (map season_number seasons)).
Proof.
  split; [reflexivity|]. intros Hnodup.
  specialize (Hnodup _ eq_refl). cbn in Hnodup.
  inversion Hnodup as [|x l Hin _]. apply Hin. now left.
Qed.

(** ** The scan *)

Section Scan.
Variable fs : Node.

(** The first loop of [scan] is two filters of the descriptor files. *)
Lemma classify_lists (files : list Path) (lists : NfoLists) :
  movie_nfos (fold_left (classify fs) files lists)
  = movie_nfos lists ++ filter (is_movie_nfo fs) files
  /\ tvshow_nfos (fold_left (classify fs) files lists)
     = tvshow_nfos lists ++ filter is_tvshow_nfo files.
Proof.
  revert lists. induction files as [|p files IH]; intros lists.
  - cbn. now rewrite !app_nil_r.
  - cbn [fold_left filter]. destruct (IH (classify fs lists p)) as [Hm Ht].
    rewrite Hm, Ht. clear IH Hm Ht.
    unfold classify, is_movie_nfo, is_tvshow_nfo, is_episode_name.
    destruct (String.eqb (PyStr.lower (Pathlib.name p)) "tvshow.nfo");
      cbn [negb andb tvshow_nfos movie_nfos];
      [now rewrite <- app_assoc|].
    destruct (PyStr.startswith (PyStr.lower (Pathlib.name p)) "s"
              && PyStr.endswith (PyStr.lower (Pathlib.name p)) ".nfo");
      cbn [negb andb tvshow_nfos movie_nfos]; [now split|].
    destruct (Pathlib.parse fs p) as [root|]; [|now split].
    destruct (String.eqb (ET.tag root) "movie");
      cbn [tvshow_nfos movie_nfos]; [now rewrite <- app_assoc|].
    destruct (String.eqb (ET.tag root) "episodedetails"); now split.
Qed.

Lemma parse_all_flat_map (parser : Path -> option MediaItem)
    (items : list MediaItem) (nfos : list Path) :
  parse_all parser items nfos
  = items ++ flat_map (fun p => option_list (parser p)) nfos.
Proof.
  unfold parse_all. apply fold_left_append.
  intros acc p. destruct (parser p); cbn; [reflexivity|].
  now rewrite app_nil_r.
Qed.

(** What a fresh scanner returns: the movies, then the shows. *)
Lemma scan_result (base : Path) :
  snd (scan fs (new_scanner base))
  = flat_map (fun p => option_list (_parse_nfo fs p))
      (filter (is_movie_nfo fs) (Pathlib.rglob fs base ".nfo"))
    ++ flat_map (fun p => option_list (_parse_tvshow_with_seasons fs p))
         (filter is_tvshow_nfo (Pathlib.rglob fs base ".nfo")).
Proof.
  unfold scan, new_scanner. cbn [snd base_path items].
  destruct (classify_lists (Pathlib.rglob fs base ".nfo")
              (mkNfoLists [] [] [])) as [Hm Ht].
  rewrite Hm, Ht. cbn [movie_nfos tvshow_nfos app].
  now rewrite !parse_all_flat_map.
Qed.

Lemma parse_nfo_item (p : Path) (item : MediaItem) :
  _parse_nfo fs p = Some item ->
  nfo_path item = p /\ seasons item = None
  /\ exists root,
       Pathlib.parse fs p = Some root /\ media_type item = ET.tag root.
Proof.
  unfold _parse_nfo. destruct (Pathlib.parse fs p) as [root|];
    [|discriminate].
  intros [= <-]. cbn. eauto.
Qed.

Lemma parse_tvshow_item (p : Path) (item : MediaItem) :
  _parse_tvshow_with_seasons fs p = Some item ->
  nfo_path item = p /\ media_type item = "tvshow".
Proof.
  unfold _parse_tvshow_with_seasons.
  destruct (Pathlib.parse fs p) as [root|]; [|discriminate].
  destruct (_collect_season_info fs (Pathlib.parent p)); [|discriminate].
  intros [= <-]. now split.
Qed.

(** A file of the movie descriptors always gives a movie. *)
Lemma movie_nfo_item (p : Path) :
  is_movie_nfo fs p = true ->
  exists item,
    _parse_nfo fs p = Some item
    /\ nfo_path item = p /\ media_type item = "movie"
    /\ seasons item = None.
Proof.
  unfold is_movie_nfo, _parse_nfo. intros Hmovie.
  apply andb_true_iff in Hmovie. destruct Hmovie as [_ Hroot].
  destruct (Pathlib.parse fs p) as [root|]; [|discriminate].
  apply String.eqb_eq in Hroot. eexists. split; [reflexivity|].
  cbn. auto.
Qed.

Lemma movies_paths (files : list Path) :
  Forall (fun p => is_movie_nfo fs p = true) files ->
  map nfo_path (flat_map (fun p => option_list (_parse_nfo fs p)) files)
  = files.
Proof.
  induction 1 as [|p files Hp _ IH]; [reflexivity|].
  destruct (movie_nfo_item p Hp) as [item [Hitem [Hpath _]]].
  cbn [flat_map]. rewrite Hitem. cbn. now rewrite IH, Hpath.
Qed.

Lemma shows_paths (files : list Path) :
  map nfo_path
    (flat_map (fun p => option_list (_parse_tvshow_with_seasons fs p))
       files)
  = filter (fun p => is_some (_parse_tvshow_with_seasons fs p)) files.
Proof.
  induction files as [|p files IH]; [reflexivity|].
  cbn [flat_map filter].
  destruct (_parse_tvshow_with_seasons fs p) as [item|] eqn:Hitem.
  - apply parse_tvshow_item in Hitem. destruct Hitem as [Hpath _].
    cbn. now rewrite IH, Hpath.
  - cbn. exact IH.
Qed.

Lemma filter_Forall {A : Type} (f : A -> bool) (l : list A) :
  Forall (fun x => f x = true) (filter f l).
Proof.
  apply Forall_forall. intros x Hx. now apply filter_In in Hx.
Qed.

End Scan.

Example scan_library :
  Pathlib.rglob library_tree ["lib"] ".nfo"
  = [ ["lib"; "show"; "tvshow.nfo"];
      ["lib"; "show"; "Season 1"; "S01E01.nfo"];
      ["lib"; "film"; "movie.nfo"]; ["lib"; "film"; "broken.nfo"] ]
  /\ map (fun item => (title item, media_type item, seasons item))
       (snd (scan library_tree (new_scanner ["lib"])))
     = [ ("Alien", "movie", None);
         ("Dark", "tvshow", Some [mkSeason 1 1 None]) ].
Proof. split; reflexivity. Qed.




(** C5, as the code has it.  A fresh scanner returns the movies first, in
    the order in which their descriptors were found, and the shows after
    them, in the order in which theirs were found. *)
Theorem scan_movies_then_shows (fs : Node) (base : Path) :
  let files := Pathlib.rglob fs base ".nfo" in
  exists movies shows,
    snd (scan fs (new_scanner base)) = movies ++ shows
    /\ Forall (fun item => media_type item = "movie") movies
    /\ Forall (fun item => media_type item = "tvshow") shows
    /\ map nfo_path movies = filter (is_movie_nfo fs) files
    /\ map nfo_path shows
       = filter
           (fun p =>
              is_tvshow_nfo p && is_some (_parse_tvshow_with_seasons fs p))
           files.
Proof.
  intros files. rewrite scan_result. fold files.
  eexists. eexists. split; [reflexivity|]. repeat split.
  - apply Forall_forall. intros item Hin.
    apply in_flat_map in Hin. destruct Hin as [p [Hp Hitem]].
    apply filter_In in Hp. destruct Hp as [_ Hp].
    destruct (movie_nfo_item fs p Hp) as [item' [Hparse [_ [Htype _]]]].
    rewrite Hparse in Hitem. destruct Hitem as [<-|[]]. exact Htype.
  - apply Forall_forall. intros item Hin.
    apply in_flat_map in Hin. destruct Hin as [p [_ Hitem]].
    destruct (_parse_tvshow_with_seasons fs p) as [item'|] eqn:Hparse;
      [|contradiction].
    destruct Hitem as [<-|[]]. now apply parse_tvshow_item in Hparse.
  - apply movies_paths, filter_Forall.
  - rewrite shows_paths. apply filter_twice.
Qed.

(** C5, as the specification has it, fails: the show descriptor is found
    before the movie descriptor and the show comes after the movie. *)
Lemma scan_not_in_discovery_order :
  Pathlib.rglob mixed_tree ["mixed"] ".nfo"
  = [ ["mixed"; "tvshow.nfo"]; ["mixed"; "alien.nfo"] ]
  /\ map (fun item => (media_type item, nfo_path item))
       (snd (scan mixed_tree (new_scanner ["mixed"])))
     = [ ("movie", ["mixed"; "alien.nfo"]);
         ("tvshow", ["mixed"; "tvshow.nfo"]) ].
Proof. split; reflexivity. Qed.

(** C4, as the code has it.  The scan of a root path that does not exist
    is not an error: it finds no descriptor and returns the empty list,
    which is what the scan of a directory without descriptors returns. *)
Theorem scan_missing_root (fs : Node) (base : Path) :
  Pathlib.exists_ fs base = false ->
  Pathlib.rglob fs base ".nfo" = []
  /\ snd (scan fs (new_scanner base)) = []
  /\ fst (scan fs (new_scanner base)) = mkScanner base [].
Proof.
  unfold Pathlib.exists_. intros Hmiss.
  assert (Hfiles : Pathlib.rglob fs base ".nfo" = []).
  { unfold Pathlib.rglob.
    destruct (Pathlib.lookup fs base); [discriminate | reflexivity]. }
  split; [exact Hfiles|].
  unfold scan, new_scanner. cbn [base_path items]. rewrite Hfiles.
  split; reflexivity.
Qed.

Lemma scan_missing_root_witness :
  Pathlib.rglob library_tree ["gone"] ".nfo" = []
  /\ snd (scan library_tree (new_scanner ["gone"])) = []
  /\ fst (scan library_tree (new_scanner ["gone"])) = mkScanner ["gone"] [].
Proof. apply (scan_missing_root library_tree ["gone"]). reflexivity. Defined.

(** C4, as the specification has it, fails: the scan of a root that does
    not exist returns what the scan of an empty directory returns. *)
Lemma scan_missing_root_like_empty_library :
  Pathlib.exists_ library_tree ["gone"] = false
  /\ Pathlib.is_dir library_tree ["empty"] = true
  /\ snd (scan library_tree (new_scanner ["gone"])) = []
  /\ snd (scan library_tree (new_scanner ["gone"]))
     = snd (scan library_tree (new_scanner ["empty"])).
Proof. repeat split; reflexivity. Qed.

(** ** Sorting by year *)

Lemma str_lt_asym (a b : string) :
  PyStr.lt a b = true -> PyStr.lt b a = false.
Proof.
  unfold PyStr.lt, String.ltb. rewrite (String.compare_antisym a b).
  destruct (String.compare b a); cbn; congruence.
Qed.

(** *** The order of strings and of the keys of [sort_by_year] *)

Lemma str_compare_trans (a b c : string) :
  String.compare a b <> Gt -> String.compare b c <> Gt ->
  String.compare a c <> Gt.
Proof.
  revert b c. induction a as [|x a IH]; intros [|y b] [|z c]; cbn;
    try congruence.
  unfold Ascii.compare.
  destruct (N.compare_spec (N_of_ascii x) (N_of_ascii y)) as [Hxy|Hxy|Hxy];
    destruct (N.compare_spec (N_of_ascii y) (N_of_ascii z)) as [Hyz|Hyz|Hyz];
    destruct (N.compare_spec (N_of_ascii x) (N_of_ascii z)) as [Hxz|Hxz|Hxz];
    try congruence; try lia.
  apply IH.
Qed.

Lemma str_lt_false (a b : string) :
  PyStr.lt a b = false <-> String.compare b a <> Gt.
Proof.
  unfold PyStr.lt, String.ltb. rewrite (String.compare_antisym b a).
  destruct (String.compare a b); cbn; split; congruence.
Qed.

Lemma str_lt_irrefl (a : string) : PyStr.lt a a = false.
Proof.
  destruct (PyStr.lt a a) eqn:H; [|reflexivity].
  now rewrite (str_lt_asym a a H) in H.
Qed.

Lemma str_lt_trans_false (a b c : string) :
  PyStr.lt b a = false -> PyStr.lt c b = false -> PyStr.lt c a = false.
Proof.
  rewrite !str_lt_false. intros Hab Hbc.
  now apply str_compare_trans with (b := b).
Qed.

(** Two strings of which none is below the other are equal. *)
Lemma str_lt_antisym (a b : string) :
  PyStr.lt a b = false -> PyStr.lt b a = false -> a = b.
Proof.
  unfold PyStr.lt, String.ltb. rewrite (String.compare_antisym a b).
  destruct (String.compare b a) eqn:Hba; cbn; try discriminate.
  intros _ _. symmetry. now apply String.compare_eq_iff.
Qed.

Lemma pair_lt_asym (a b : string * string) :
  PySort.pair_lt a b = true -> PySort.pair_lt b a = false.
Proof.
  unfold PySort.pair_lt. rewrite (String.eqb_sym (fst b) (fst a)).
  destruct (String.eqb (fst a) (fst b)); apply str_lt_asym.
Qed.

Lemma pair_lt_trans_false (a b c : string * string) :
  PySort.pair_lt b a = false -> PySort.pair_lt c b = false ->
  PySort.pair_lt c a = false.
Proof.
  destruct a as [a1 a2], b as [b1 b2], c as [c1 c2].
  unfold PySort.pair_lt. cbn [fst snd].
  destruct (String.eqb_spec b1 a1) as [Hba|Hba];
    destruct (String.eqb_spec c1 b1) as [Hcb|Hcb];
    destruct (String.eqb_spec c1 a1) as [Hca|Hca];
    try congruence.
  - apply str_lt_trans_false.
  - subst c1. intros Hab Hbc. exfalso. apply Hba.
    now apply str_lt_antisym.
  - apply str_lt_trans_false.
Qed.

Lemma StronglySorted_snoc {A : Type} (R : A -> A -> Prop) (l : list A)
    (x : A) :
  StronglySorted R l -> Forall (fun y => R y x) l ->
  StronglySorted R (l ++ [x]).
Proof.
  induction 1 as [|y l Hl IH Hy]; intros Hx; cbn.
  - constructor; constructor.
  - apply Forall_cons_iff in Hx. destruct Hx as [Hyx Hx].
    constructor; [now apply IH|].
    apply Forall_app. split; [assumption | now constructor].
Qed.

Lemma StronglySorted_rev {A : Type} (R : A -> A -> Prop) (l : list A) :
  StronglySorted R l -> StronglySorted (fun x y => R y x) (rev l).
Proof.
  induction 1 as [|x l Hl IH Hx]; cbn; [constructor|].
  apply StronglySorted_snoc; [exact IH|].
  apply Forall_forall. intros y Hy. apply in_rev in Hy.
  revert y Hy. now apply Forall_forall.
Qed.

(** The part of C1 that holds: [sort_by_year] rearranges the items so that
    no item comes before an item with a greater pair of year and sort key;
    in particular the year strings descend, an item without a year counting
    as of the year 0000. *)
Lemma sort_by_year_descending (items : list MediaItem) :
  Permutation (sort_by_year items) items
  /\ StronglySorted
       (fun a b => PySort.pair_lt (year_key a) (year_key b) = false)
       (sort_by_year items)
  /\ StronglySorted
       (fun a b => PyStr.lt (year_or_0000 a) (year_or_0000 b) = false)
       (sort_by_year items).
Proof.
  assert (Hsorted :
    StronglySorted
      (fun a b => PySort.pair_lt (year_key a) (year_key b) = false)
      (sort_by_year items)).
  { unfold sort_by_year, PySort.sorted.
    apply (StronglySorted_rev (PySort.not_after year_key PySort.pair_lt)).
    apply stable_sort_sorted.
    - apply pair_lt_asym.
    - apply pair_lt_trans_false. }
  split; [apply sorted_perm|]. split; [exact Hsorted|].
  induction Hsorted as [|a l Hl IH Ha]; constructor; [exact IH|].
  apply Forall_impl with (2 := Ha). intros b. unfold PySort.pair_lt, year_key.
  cbn [fst snd].
  destruct (String.eqb_spec (year_or_0000 a) (year_or_0000 b)) as [->|Hne];
    [intros _; apply str_lt_irrefl | trivial].
Qed.

(** The newest first, and an item without a year last. *)
Example sort_by_year_example :
  map year
    (sort_by_year
       [movie "Kid A" (Some "2001"); movie "Untitled" None;
        movie "Matrix" (Some "1999")])
  = [Some "2001"; Some "1999"; None].
Proof. reflexivity. Qed.

(** C1, where the code departs from it.  Two items of the same year come
    out with the greater sort key first, whatever their order was: the ties
    are in descending order of the sort key, not in ascending order. *)
Theorem sort_by_year_ties_descending (a b : MediaItem) :
  year_or_0000 a = year_or_0000 b ->
  PyStr.lt (_get_sort_key (title a)) (_get_sort_key (title b)) = true ->
  sort_by_year [a; b] = [b; a] /\ sort_by_year [b; a] = [b; a].
Proof.
  intros Hyear Hkey. pose proof (str_lt_asym _ _ Hkey) as Hrev.
  unfold sort_by_year, PySort.sorted, PySort.stable_sort.
  cbn [rev app fold_right PySort.insert].
  unfold PySort.pair_lt, year_key. cbn [fst snd].
  rewrite Hyear, String.eqb_refl, Hkey, Hrev. split; reflexivity.
Qed.

Lemma sort_by_year_ties_descending_witness :
  sort_by_year [movie "Alpha" (Some "2000"); movie "Beta" (Some "2000")]
  = [movie "Beta" (Some "2000"); movie "Alpha" (Some "2000")]
  /\ sort_by_year [movie "Beta" (Some "2000"); movie "Alpha" (Some "2000")]
     = [movie "Beta" (Some "2000"); movie "Alpha" (Some "2000")].
Proof.
  apply (sort_by_year_ties_descending
           (movie "Alpha" (Some "2000")) (movie "Beta" (Some "2000")));
    reflexivity.
Defined.

(** * Further properties of the sorter *)

(** ** Stability *)

Section Stability.
Context {A K : Type}.
Variable key : A -> K.
Variable lt : K -> K -> bool.
Hypothesis lt_irrefl : forall k, lt k k = false.

(** [same] picks the elements of one key. *)
Variable same : A -> bool.
Variable k0 : K.
Hypothesis same_key : forall x, same x = true -> key x = k0.

Lemma insert_keeps_order (x : A) (l : list A) :
  filter same (PySort.insert key lt x l) = filter same (x :: l).
Proof.
  induction l as [|y l IH]; [reflexivity|].
  cbn [PySort.insert]. destruct (lt (key y) (key x)) eqn:Hyx; [|reflexivity].
  cbn [filter] in *. rewrite IH.
  destruct (same x) eqn:Hx; [|reflexivity].
  destruct (same y) eqn:Hy; [|reflexivity].
  rewrite (same_key x Hx), (same_key y Hy), lt_irrefl in Hyx. discriminate.
Qed.

Lemma stable_sort_keeps_order (l : list A) :
  filter same (PySort.stable_sort key lt l) = filter same l.
Proof.
  induction l as [|x l IH]; [reflexivity|].
  cbn [PySort.stable_sort fold_right].
  fold (PySort.stable_sort key lt l).
  rewrite insert_keeps_order. cbn [filter]. now rewrite IH.
Qed.

(** The elements of one key come out of [sorted] in the order in which
    they went in, with [reverse=True] as well. *)
Lemma sorted_keeps_order (reverse : bool) (l : list A) :
  filter same (PySort.sorted key lt reverse l) = filter same l.
Proof.
  unfold PySort.sorted. destruct reverse.
  - now rewrite filter_rev, stable_sort_keeps_order, filter_rev, rev_involutive.
  - apply stable_sort_keeps_order.
Qed.
End Stability.

Lemma pair_lt_irrefl (k : string * string) : PySort.pair_lt k k = false.
Proof.
  unfold PySort.pair_lt. rewrite String.eqb_refl. apply str_lt_irrefl.
Qed.

(** The three sorts are stable: the items that have one and the same key
    (the sort key of the title; the year and the sort key; the media type
    and the sort key) keep the order they had in the input.  For
    [sort_by_year] this holds although the sort is reversed. *)
Theorem sorts_are_stable (items : list MediaItem) :
  (forall k,
      filter (fun x => String.eqb (_get_sort_key (title x)) k)
        (sort_by_title items)
      = filter (fun x => String.eqb (_get_sort_key (title x)) k) items)
  /\ (forall y k,
         filter (fun x => String.eqb (year_or_0000 x) y
                          && String.eqb (_get_sort_key (title x)) k)
           (sort_by_year items)
         = filter (fun x => String.eqb (year_or_0000 x) y
                            && String.eqb (_get_sort_key (title x)) k)
             items)
  /\ (forall t k,
         filter (fun x => String.eqb (media_type x) t
                          && String.eqb (_get_sort_key (title x)) k)
           (sort_by_type items)
         = filter (fun x => String.eqb (media_type x) t
                            && String.eqb (_get_sort_key (title x)) k)
             items).
Proof.
  split; [|split].
  - intros k. unfold sort_by_title.
    apply sorted_keeps_order with (k0 := k); [apply str_lt_irrefl|].
    intros x Hx. now apply String.eqb_eq.
  - intros y k. unfold sort_by_year.
    apply sorted_keeps_order with (k0 := (y, k)); [apply pair_lt_irrefl|].
    intros x Hx. apply andb_true_iff in Hx. destruct Hx as [Hy Hk].
    apply String.eqb_eq in Hy, Hk. unfold year_key. now rewrite Hy, Hk.
  - intros t k. unfold sort_by_type.
    apply sorted_keeps_order with (k0 := (t, k)); [apply pair_lt_irrefl|].
    intros x Hx. apply andb_true_iff in Hx. destruct Hx as [Ht Hk].
    apply String.eqb_eq in Ht, Hk. now rewrite Ht, Hk.
Qed.

(** ** What the sorts keep and how they order *)

(** No sort loses an item or repeats one. *)
Theorem sorts_permute (items : list MediaItem) :
  Permutation (sort_by_title items) items
  /\ Permutation (sort_by_year items) items
  /\ Permutation (sort_by_type items) items.
Proof. repeat split; apply sorted_perm. Qed.

(** [sort_by_title] puts the sort keys in ascending order: no item comes
    before an item with a smaller sort key. *)
Theorem sort_by_title_ascending (items : list MediaItem) :
  StronglySorted
    (fun a b =>
       PyStr.lt (_get_sort_key (title b)) (_get_sort_key (title a)) = false)
    (sort_by_title items).
Proof.
  unfold sort_by_title, PySort.sorted.
  apply (stable_sort_sorted (fun x => _get_sort_key (title x)) PyStr.lt).
  - apply str_lt_asym.
  - apply str_lt_trans_false.
Qed.

Lemma StronglySorted_pair {A : Type} (R : A -> A -> Prop)
    (l1 l2 l3 : list A) (a b : A) :
  StronglySorted R (l1 ++ a :: l2 ++ b :: l3) -> R a b.
Proof.
  induction l1 as [|x l1 IH]; cbn; intros Hsorted;
    apply StronglySorted_inv in Hsorted; destruct Hsorted as [Hrest Hall].
  - apply Forall_forall with (x := b) in Hall; [assumption|].
    apply in_or_app. right. now left.
  - now apply IH.
Qed.

(** [sort_by_type] orders by media type and then by sort key, both
    ascending; since "movie" is below "tvshow", no show comes before a
    movie. *)
Theorem sort_by_type_movies_first (items : list MediaItem) :
  StronglySorted
    (fun a b =>
       PySort.pair_lt (media_type b, _get_sort_key (title b))
         (media_type a, _get_sort_key (title a)) = false)
    (sort_by_type items)
  /\ (forall l1 a l2 b l3,
         sort_by_type items = l1 ++ a :: l2 ++ b :: l3 ->
         media_type a = "tvshow" -> media_type b <> "movie").
Proof.
  assert (Hsorted :
    StronglySorted
      (fun a b =>
         PySort.pair_lt (media_type b, _get_sort_key (title b))
           (media_type a, _get_sort_key (title a)) = false)
      (sort_by_type items)).
  { unfold sort_by_type, PySort.sorted.
    apply (stable_sort_sorted
             (fun x => (media_type x, _get_sort_key (title x)))
             PySort.pair_lt).
    - apply pair_lt_asym.
    - apply pair_lt_trans_false. }
  split; [exact Hsorted|].
  intros l1 a l2 b l3 Heq Ha Hb. rewrite Heq in Hsorted.
  apply StronglySorted_pair in Hsorted.
  unfold PySort.pair_lt in Hsorted. cbn [fst snd] in Hsorted.
  rewrite Ha, Hb in Hsorted. cbv in Hsorted. discriminate.
Qed.

Lemma sort_by_type_movies_first_witness :
  media_type (mkMediaItem "Lost" None None "tvshow" None [] [] [] (Some []))
  <> "movie".
Proof.
  apply (proj2 (sort_by_type_movies_first
                  [mkMediaItem "Lost" None None "tvshow" None [] [] []
                     (Some []);
                   mkMediaItem "Dark" None None "tvshow" None [] [] []
                     (Some [])])
           []
           (mkMediaItem "Dark" None None "tvshow" None [] [] [] (Some []))
           []
           (mkMediaItem "Lost" None None "tvshow" None [] [] [] (Some []))
           []);
    reflexivity.
Defined.

(** * Further properties of the scanner *)

(** ** The state of the scanner *)

(** [scan] appends to the items the scanner holds.  A second scan with the
    same scanner, over an unchanged tree, returns every item twice. *)
Theorem scan_accumulates (fs : Node) (self : JellyfinScanner) :
  snd (scan fs self)
  = items self ++ snd (scan fs (new_scanner (base_path self)))
  /\ fst (scan fs self) = mkScanner (base_path self) (snd (scan fs self))
  /\ snd (scan fs (fst (scan fs (new_scanner (base_path self)))))
     = snd (scan fs (new_scanner (base_path self)))
       ++ snd (scan fs (new_scanner (base_path self))).
Proof.
  assert (Happend : forall s,
            snd (scan fs s)
            = items s ++ snd (scan fs (new_scanner (base_path s)))).
  { intros s. unfold scan, new_scanner. cbn [snd base_path items].
    rewrite !parse_all_flat_map. cbn [app]. now rewrite app_assoc. }
  split; [apply Happend|]. split; [reflexivity|].
  rewrite Happend. reflexivity.
Qed.

Example scan_twice :
  let once := scan library_tree (new_scanner ["lib"]) in
  map title (snd once) = ["Alien"; "Dark"]
  /\ map title (snd (scan library_tree (fst once)))
     = ["Alien"; "Dark"; "Alien"; "Dark"].
Proof. split; reflexivity. Qed.

(** ** The items a scan returns *)

Lemma title_or_unknown_not_empty (t : option string) :
  title_or_unknown t <> "".
Proof.
  unfold title_or_unknown. destruct t as [[|c t]|]; discriminate.
Qed.

(** Every item a fresh scanner returns comes from a descriptor that the
    scan found and that parses; its title is not empty; its poster is the
    artwork of the directory of the descriptor; and it is either a movie
    without seasons or a show with the seasons of its directory. *)
Theorem scan_items_well_formed (fs : Node) (base : Path) (item : MediaItem) :
  In item (snd (scan fs (new_scanner base))) ->
  In (nfo_path item) (Pathlib.rglob fs base ".nfo")
  /\ (exists root, Pathlib.parse fs (nfo_path item) = Some root)
  /\ title item <> ""
  /\ poster_path item = _find_poster fs (Pathlib.parent (nfo_path item))
  /\ ((media_type item = "movie" /\ seasons item = None)
      \/ (media_type item = "tvshow"
          /\ exists l,
               seasons item = Some l
               /\ _collect_season_info fs (Pathlib.parent (nfo_path item))
                  = Some l)).
Proof.
  rewrite scan_result. intros Hin. apply in_app_or in Hin.
  destruct Hin as [Hin|Hin]; apply in_flat_map in Hin;
    destruct Hin as [p [Hp Hitem]]; apply filter_In in Hp;
    destruct Hp as [Hfound Hclass].
  - unfold is_movie_nfo in Hclass. apply andb_true_iff in Hclass.
    destruct Hclass as [_ Hroot]. unfold _parse_nfo in Hitem.
    destruct (Pathlib.parse fs p) as [root|] eqn:Hparse; [|discriminate].
    destruct Hitem as [<-|[]].
    cbn [nfo_path title poster_path media_type seasons]. rewrite Hparse.
    apply String.eqb_eq in Hroot.
    repeat split; eauto using title_or_unknown_not_empty.
  - unfold _parse_tvshow_with_seasons in Hitem.
    destruct (Pathlib.parse fs p) as [root|] eqn:Hparse; [|contradiction].
    destruct (_collect_season_info fs (Pathlib.parent p)) as [l|] eqn:Hl;
      [|contradiction].
    destruct Hitem as [<-|[]].
    cbn [nfo_path title poster_path media_type seasons]. rewrite Hparse, Hl.
    repeat split; eauto using title_or_unknown_not_empty.
Qed.

Lemma scan_items_well_formed_witness :
  exists item,
    In item (snd (scan library_tree (new_scanner ["lib"])))
    /\ title item <> ""
    /\ poster_path item
       = _find_poster library_tree (Pathlib.parent (nfo_path item)).
Proof.
  eexists. split; [left; reflexivity|].
  split;
    apply (scan_items_well_formed library_tree ["lib"]); left; reflexivity.
Defined.

(** ** Names that start with an s *)

Lemma map_chars_app (f : ascii -> ascii) (a b : string) :
  PyStr.map_chars f (a ++ b)
  = (PyStr.map_chars f a ++ PyStr.map_chars f b)%string.
Proof.
  induction a as [|c a IH]; cbn; [reflexivity | now rewrite IH].
Qed.

Lemma map_chars_rev (f : ascii -> ascii) (s : string) :
  PyStr.map_chars f (PyStr.rev_string s)
  = PyStr.rev_string (PyStr.map_chars f s).
Proof.
  induction s as [|c s IH]; cbn; [reflexivity|].
  now rewrite map_chars_app, IH.
Qed.

Lemma prefix_map_chars (f : ascii -> ascii) (p s : string) :
  String.prefix p s = true ->
  String.prefix (PyStr.map_chars f p) (PyStr.map_chars f s) = true.
Proof.
  revert s. induction p as [|c p IH]; intros [|d s]; cbn; try congruence.
  destruct (Ascii.ascii_dec c d) as [->|Hne]; [|discriminate].
  intros Hp. destruct (Ascii.ascii_dec (f d) (f d)); [|contradiction].
  now apply IH.
Qed.

(** A name with the extension [.nfo] keeps it when it is lower-cased. *)
Lemma endswith_nfo_lower (name : string) :
  PyStr.endswith name ".nfo" = true ->
  PyStr.endswith (PyStr.lower name) ".nfo" = true.
Proof.
  unfold PyStr.endswith, PyStr.lower. intros Hends.
  rewrite <- map_chars_rev.
  apply (prefix_map_chars PyStr.lower_char) in Hends. exact Hends.
Qed.

(** What [rglob] yields has the extension it was asked for. *)
Lemma walk_endswith (ext : string) :
  forall (n : Node) (base p : Path),
    In p (Pathlib.walk ext base n) ->
    PyStr.endswith (Pathlib.name p) ext = true.
Proof.
  fix IH 1. intros [content|es] base p; cbn [Pathlib.walk];
    [contradiction|].
  intros Hin. apply in_app_or in Hin. destruct Hin as [Hin|Hin].
  - apply in_map_iff in Hin. destruct Hin as [e [<- He]].
    apply filter_In in He. destruct He as [_ He].
    unfold Pathlib.name, Pathlib.child. now rewrite last_last.
  - revert Hin. generalize es.
    fix IHes 1. intros [|[name sub] l]; cbn; [contradiction|].
    intros Hin. apply in_app_or in Hin. destruct Hin as [Hin|Hin].
    + exact (IH sub _ _ Hin).
    + exact (IHes l Hin).
Qed.

Lemma rglob_endswith (fs : Node) (base p : Path) (ext : string) :
  In p (Pathlib.rglob fs base ext) ->
  PyStr.endswith (Pathlib.name p) ext = true.
Proof.
  unfold Pathlib.rglob. destruct (Pathlib.lookup fs base) as [n|];
    [apply walk_endswith | contradiction].
Qed.

(** No item of a scan comes from a file whose name starts with [s] or [S]:
    such a file counts as an episode descriptor whatever its root element
    is, a movie descriptor such as [Scarface.nfo] included. *)
Theorem scan_skips_s_names (fs : Node) (base : Path) (item : MediaItem) :
  In item (snd (scan fs (new_scanner base))) ->
  PyStr.startswith (PyStr.lower (Pathlib.name (nfo_path item))) "s" = false.
Proof.
  rewrite scan_result. intros Hin. apply in_app_or in Hin.
  destruct Hin as [Hin|Hin]; apply in_flat_map in Hin;
    destruct Hin as [p [Hp Hitem]]; apply filter_In in Hp;
    destruct Hp as [Hfound Hclass].
  - destruct (_parse_nfo fs p) as [item'|] eqn:Hparse; [|contradiction].
    destruct Hitem as [<-|[]].
    apply parse_nfo_item in Hparse. destruct Hparse as [-> _].
    apply rglob_endswith, endswith_nfo_lower in Hfound.
    unfold is_movie_nfo, is_episode_name in Hclass. rewrite Hfound in Hclass.
    destruct (PyStr.startswith (PyStr.lower (Pathlib.name p)) "s");
      [|reflexivity].
    rewrite andb_false_r in Hclass. discriminate.
  - destruct (_parse_tvshow_with_seasons fs p) as [item'|] eqn:Hparse;
      [|contradiction].
    destruct Hitem as [<-|[]].
    apply parse_tvshow_item in Hparse. destruct Hparse as [-> _].
    unfold is_tvshow_nfo in Hclass. apply String.eqb_eq in Hclass.
    now rewrite Hclass.
Qed.

Lemma scan_skips_s_names_witness :
  PyStr.startswith
    (PyStr.lower
       (Pathlib.name
          (nfo_path
             (mkMediaItem "Alien" None None "movie" None
                ["lib"; "film"; "movie.nfo"] [] [] None))))
    "s" = false.
Proof.
  apply (scan_skips_s_names library_tree ["lib"]). left. reflexivity.
Defined.

(** ** Artwork that is found is there *)

Section ArtworkSound.
Variable fs : Node.

Lemma assoc_In (name : string) (node : Node) (es : list (string * Node)) :
  In (name, node) es -> Pathlib.assoc name es <> None.
Proof.
  induction es as [|[n x] es IH]; cbn; [contradiction|].
  intros [Heq|Hin].
  - inversion Heq; subst. now rewrite String.eqb_refl.
  - destruct (String.eqb n name); [discriminate | now apply IH].
Qed.

(** An entry of the listing of a directory exists. *)
Lemma exists_entry (directory : Path) (es : list (string * Node))
    (e : string * Node) :
  Pathlib.lookup fs directory = Some (Dir es) -> In e es ->
  Pathlib.exists_ fs (Pathlib.child directory (fst e)) = true.
Proof.
  intros Hdir Hin. unfold Pathlib.exists_, Pathlib.child.
  rewrite lookup_app, Hdir. cbn. destruct e as [name node].
  pose proof (assoc_In name node es Hin) as Hassoc. cbn [fst].
  destruct (Pathlib.assoc name es); [reflexivity | contradiction].
Qed.

Lemma glob_In (directory p : Path) (ext : string) :
  In p (Pathlib.glob fs directory ext) ->
  exists name,
    p = Pathlib.child directory name
    /\ PyStr.endswith name ext = true
    /\ Pathlib.exists_ fs p = true.
Proof.
  unfold Pathlib.glob.
  destruct (Pathlib.lookup fs directory) as [[content|es]|] eqn:Hdir;
    try contradiction.
  intros Hin. apply in_map_iff in Hin. destruct Hin as [e [<- He]].
  apply filter_In in He. destruct He as [He Hends].
  exists (fst e). repeat split; [assumption|].
  now apply exists_entry with (es := es).
Qed.

Lemma glob_nil (directory : Path) (ext : string)
    (es : list (string * Node)) :
  Pathlib.glob fs directory ext = [] ->
  Pathlib.lookup fs directory = Some (Dir es) ->
  forall e, In e es -> PyStr.endswith (fst e) ext = false.
Proof.
  unfold Pathlib.glob. intros Hglob Hdir e He. rewrite Hdir in Hglob.
  apply map_eq_nil in Hglob.
  destruct (PyStr.endswith (fst e) ext) eqn:Hends; [|reflexivity].
  assert (Hin : In e (filter (fun e => PyStr.endswith (fst e) ext) es))
    by now apply filter_In.
  rewrite Hglob in Hin. contradiction.
Qed.

Lemma first_existing_some (directory p : Path) (names : list string) :
  first_existing fs directory names = Some p ->
  exists name,
    In name names /\ p = Pathlib.child directory name
    /\ Pathlib.exists_ fs p = true.
Proof.
  induction names as [|n names IH]; cbn; [discriminate|].
  destruct (Pathlib.exists_ fs (Pathlib.child directory n)) eqn:Hn.
  - intros [= <-]. exists n. auto.
  - intros Hp. destruct (IH Hp) as [name [Hin Hname]]. exists name. auto.
Qed.

Lemma first_existing_none_inv (directory : Path) (names : list string) :
  first_existing fs directory names = None ->
  forall name, In name names ->
               Pathlib.exists_ fs (Pathlib.child directory name) = false.
Proof.
  induction names as [|n names IH]; cbn; [contradiction|].
  destruct (Pathlib.exists_ fs (Pathlib.child directory n)) eqn:Hn;
    [discriminate|].
  intros Hnone name [<-|Hin]; [assumption | now apply IH].
Qed.

Lemma first_image_some (directory p : Path) (exts : list string) :
  first_image fs directory exts = Some p ->
  exists ext name,
    In ext exts /\ p = Pathlib.child directory name
    /\ PyStr.endswith name ext = true /\ Pathlib.exists_ fs p = true.
Proof.
  induction exts as [|e exts IH]; cbn; [discriminate|].
  destruct (Pathlib.glob fs directory e) as [|image others] eqn:Hglob.
  - intros Hp. destruct (IH Hp) as [ext [name [Hin Hname]]].
    exists ext, name. auto.
  - intros [= <-].
    destruct (glob_In directory image e) as [name Hname].
    { rewrite Hglob. now left. }
    exists e, name. tauto.
Qed.

Lemma first_image_none_inv (directory : Path) (exts : list string) :
  first_image fs directory exts = None ->
  forall ext, In ext exts -> Pathlib.glob fs directory ext = [].
Proof.
  induction exts as [|e exts IH]; cbn; [contradiction|].
  destruct (Pathlib.glob fs directory e) as [|image others] eqn:Hglob;
    [|discriminate].
  intros Hnone ext [<-|Hin]; [assumption | now apply IH].
Qed.

End ArtworkSound.

(** The poster [_find_poster] returns exists and lies in the directory
    itself, under one of the six poster names or with one of the three
    image extensions.  It returns none only when none of the six names
    exists and no entry of the directory has one of the extensions. *)
Theorem find_poster_sound (fs : Node) (directory : Path) :
  (forall p,
      _find_poster fs directory = Some p ->
      Pathlib.exists_ fs p = true
      /\ exists name,
           p = Pathlib.child directory name
           /\ (In name poster_names
               \/ exists ext,
                    In ext image_exts /\ PyStr.endswith name ext = true))
  /\ (_find_poster fs directory = None ->
      (forall name,
          In name poster_names ->
          Pathlib.exists_ fs (Pathlib.child directory name) = false)
      /\ forall es e ext,
           Pathlib.lookup fs directory = Some (Dir es) ->
           In e es -> In ext image_exts ->
           PyStr.endswith (fst e) ext = false).
Proof.
  unfold _find_poster. split.
  - intros p.
    destruct (first_existing fs directory poster_names) as [q|] eqn:Hnames.
    + intros [= <-].
      destruct (first_existing_some fs directory q poster_names Hnames)
        as [name [Hin [Hq Hexists]]].
      split; [assumption|]. exists name. auto.
    + intros Himage.
      destruct (first_image_some fs directory p image_exts Himage)
        as [ext [name [Hin [Hp [Hends Hexists]]]]].
      split; [assumption|]. exists name. split; [assumption|].
      right. exists ext. auto.
  - destruct (first_existing fs directory poster_names) as [q|] eqn:Hnames;
      [discriminate|].
    intros Himage. split.
    + now apply first_existing_none_inv.
    + intros es e ext Hdir He Hext.
      apply (glob_nil fs directory ext es); [|assumption|assumption].
      now apply (first_image_none_inv fs directory image_exts).
Qed.

Lemma find_poster_sound_witness :
  Pathlib.exists_ artwork_tree ["film"; "a.jpeg"] = true
  /\ forall es e ext,
       Pathlib.lookup artwork_tree ["bare"] = Some (Dir es) ->
       In e es -> In ext image_exts ->
       PyStr.endswith (fst e) ext = false.
Proof.
  split.
  - apply (proj1 (find_poster_sound artwork_tree ["film"])
             ["film"; "a.jpeg"] eq_refl).
  - apply (proj2 (find_poster_sound artwork_tree ["bare"]) eq_refl).
Defined.

Lemma prefix_empty (s : string) : String.prefix "" s = true.
Proof. destruct s; reflexivity. Qed.

(** The poster [_find_season_poster] returns exists; it lies in the show
    directory under a name that starts with [season], or in the season
    directory.  It returns none only when the season directory has no
    entry with one of the three image extensions. *)
Theorem find_season_poster_sound (fs : Node) (season_dir show_dir : Path)
    (season_num : N) :
  (forall p,
      _find_season_poster fs season_dir season_num show_dir = Some p ->
      Pathlib.exists_ fs p = true
      /\ exists name,
           (p = Pathlib.child show_dir name
            /\ PyStr.startswith name "season" = true)
           \/ p = Pathlib.child season_dir name)
  /\ (_find_season_poster fs season_dir season_num show_dir = None ->
      forall es e ext,
        Pathlib.lookup fs season_dir = Some (Dir es) ->
        In e es -> In ext image_exts ->
        PyStr.endswith (fst e) ext = false).
Proof.
  unfold _find_season_poster. cbv zeta.
  match goal with
  | |- context [first_existing fs show_dir ?names] =>
      destruct (first_existing fs show_dir names) as [q|] eqn:Hshow
  end.
  - split; [|discriminate]. intros p [= <-].
    apply first_existing_some in Hshow.
    destruct Hshow as [name [Hin [Hq Hexists]]].
    split; [assumption|]. exists name. left. split; [assumption|].
    cbn in Hin. unfold PyStr.startswith.
    repeat (destruct Hin as [<-|Hin];
            [cbn; first [reflexivity | apply prefix_empty]|]).
    contradiction.
  - match goal with
    | |- context [first_existing fs season_dir ?names] =>
        destruct (first_existing fs season_dir names) as [q|] eqn:Hseason
    end.
    + split; [|discriminate]. intros p [= <-].
      apply first_existing_some in Hseason.
      destruct Hseason as [name [Hin [Hq Hexists]]].
      split; [assumption|]. exists name. now right.
    + split.
      * intros p Himage.
        destruct (first_image_some fs season_dir p image_exts Himage)
          as [ext [name [Hin [Hp [Hends Hexists]]]]].
        split; [assumption|]. exists name. now right.
      * intros Himage es e ext Hdir He Hext.
        apply (glob_nil fs season_dir ext es); [|assumption|assumption].
        now apply (first_image_none_inv fs season_dir image_exts).
Qed.

Lemma find_season_poster_sound_witness :
  (Pathlib.exists_ season_art_tree ["show"; "season01-poster.jpg"] = true
   /\ exists name,
        (["show"; "season01-poster.jpg"] = Pathlib.child ["show"] name
         /\ PyStr.startswith name "season" = true)
        \/ ["show"; "season01-poster.jpg"]
           = Pathlib.child ["show"; "Season 01"] name)
  /\ forall es e ext,
       Pathlib.lookup season_art_tree ["show"; "Season 03"] = Some (Dir es) ->
       In e es -> In ext image_exts ->
       PyStr.endswith (fst e) ext = false.
Proof.
  split.
  - apply (proj1 (find_season_poster_sound season_art_tree
                    ["show"; "Season 01"] ["show"] 1)
             ["show"; "season01-poster.jpg"] eq_refl).
  - apply (proj2 (find_season_poster_sound season_art_tree
                    ["show"; "Season 03"] ["show"] 3) eq_refl).
Defined.

Example scan_skips_scarface :
  Pathlib.rglob scarface_tree ["films"] ".nfo" = [["films"; "Scarface.nfo"]]
  /\ snd (scan scarface_tree (new_scanner ["films"])) = [].
Proof. split; reflexivity. Qed.

(** * Further properties of the seasons *)

(** ** Where a season comes from *)

Section SeasonRecords.
Variable fs : Node.

(** The season the second loop of [_collect_season_info] makes of a
    directory *)
Lemma add_season_records (show_dir : Path) (dirs : list Path)
    (s : Season) :
  In s (fold_left (add_season fs show_dir) dirs []) ->
  exists season_dir,
    In season_dir dirs
    /\ season_number_of season_dir = Some (season_number s)
    /\ episode_count s
       = List.length
           (filter
              (fun f =>
                 negb (PyStr.startswith (PyStr.lower (Pathlib.name f))
                         "season"))
              (Pathlib.glob fs season_dir ".nfo"))
    /\ season_poster_path s
       = _find_season_poster fs season_dir (season_number s) show_dir.
Proof.
  rewrite fold_left_append
    with (f := fun p => fold_left (add_season fs show_dir) [p] []).
  - cbn [app]. intros Hin. apply in_flat_map in Hin.
    destruct Hin as [p [Hp Hs]]. exists p. split; [assumption|].
    cbn [fold_left] in Hs. unfold add_season, season_number_of in *.
    destruct (season_search (PyStr.lower (Pathlib.name p))) as [digits|];
      [|contradiction].
    destruct Hs as [<-|[]]. cbn. auto.
  - intros acc p. cbn [fold_left]. unfold add_season.
    destruct (season_search (PyStr.lower (Pathlib.name p)));
      [reflexivity | now rewrite app_nil_r].
Qed.
End SeasonRecords.

(** Every season of the result is the season of one season directory of
    the show: it has the number its name yields, its episode count is the
    number of [.nfo] entries of that directory whose names do not start
    with [season], and its poster is the season poster of that
    directory. *)
Theorem collect_season_info_records (fs : Node) (show_dir : Path)
    (seasons : list Season) (s : Season) :
  _collect_season_info fs show_dir = Some seasons ->
  In s seasons ->
  exists season_dir name,
    season_dir = Pathlib.child show_dir name
    /\ Pathlib.is_dir fs season_dir = true
    /\ PyStr.startswith (PyStr.lower name) "season" = true
    /\ season_number_of season_dir = Some (season_number s)
    /\ episode_count s
       = List.length
           (filter
              (fun f =>
                 negb (PyStr.startswith (PyStr.lower (Pathlib.name f))
                         "season"))
              (Pathlib.glob fs season_dir ".nfo"))
    /\ season_poster_path s
       = _find_season_poster fs season_dir (season_number s) show_dir.
Proof.
  unfold _collect_season_info, Pathlib.iterdir.
  destruct (Pathlib.lookup fs show_dir) as [[content|es]|];
    try discriminate.
  intros [= <-] Hin.
  apply (Permutation_in _ (sorted_perm _ _ false _)) in Hin.
  apply add_season_records in Hin.
  destruct Hin as [season_dir [Hdir Hrecord]].
  apply (Permutation_in _ (sorted_perm _ _ false _)) in Hdir.
  rewrite fold_left_filter in Hdir. cbn [app] in Hdir.
  apply filter_In in Hdir. destruct Hdir as [Hlisted Hseason].
  apply in_map_iff in Hlisted. destruct Hlisted as [e [<- He]].
  unfold is_season_dir in Hseason. apply andb_true_iff in Hseason.
  destruct Hseason as [Hisdir Hname].
  unfold Pathlib.name, Pathlib.child in Hname. rewrite last_last in Hname.
  exists (Pathlib.child show_dir (fst e)), (fst e). tauto.
Qed.

Lemma collect_season_info_records_witness :
  exists season_dir name,
    season_dir = Pathlib.child ["show"] name
    /\ Pathlib.is_dir season_art_tree season_dir = true
    /\ PyStr.startswith (PyStr.lower name) "season" = true
    /\ season_number_of season_dir = Some 2%N
    /\ 2 = List.length
             (filter
                (fun f =>
                   negb (PyStr.startswith (PyStr.lower (Pathlib.name f))
                           "season"))
                (Pathlib.glob season_art_tree season_dir ".nfo"))
    /\ Some ["show"; "Season 02"; "still.png"]
       = _find_season_poster season_art_tree season_dir 2 ["show"].
Proof.
  apply (collect_season_info_records season_art_tree ["show"]
           [mkSeason 1 1 (Some ["show"; "season01-poster.jpg"]);
            mkSeason 2 2 (Some ["show"; "Season 02"; "still.png"]);
            mkSeason 3 1 None]
           (mkSeason 2 2 (Some ["show"; "Season 02"; "still.png"]))).
  - reflexivity.
  - right. left. reflexivity.
Defined.

(** ** The season pattern and the names of season directories *)

Lemma take_digits_digits (s : string) :
  PyStr.all_chars PyStr.isdigit (take_digits s) = true.
Proof.
  induction s as [|c s IH]; cbn; [reflexivity|].
  destruct (PyStr.isdigit c) eqn:Hc; cbn; [now rewrite Hc | reflexivity].
Qed.

Lemma take_digits_none (s : string) :
  PyStr.all_chars (fun c => negb (PyStr.isdigit c)) s = true ->
  take_digits s = "".
Proof.
  destruct s as [|c s]; cbn; [reflexivity|].
  destruct (PyStr.isdigit c); [discriminate | reflexivity].
Qed.

Lemma all_chars_drop (p : ascii -> bool) (n : nat) (s : string) :
  PyStr.all_chars p s = true -> PyStr.all_chars p (drop n s) = true.
Proof.
  revert s. induction n as [|n IH]; intros [|c s]; cbn; try reflexivity;
    try (intros H; exact H).
  intros H. apply andb_true_iff in H. now apply IH.
Qed.

Lemma all_chars_lstrip (p : ascii -> bool) (s : string) :
  PyStr.all_chars p s = true -> PyStr.all_chars p (PyStr.lstrip s) = true.
Proof.
  induction s as [|c s IH]; cbn; [reflexivity|].
  intros H. destruct (PyStr.isspace c); [|exact H].
  apply andb_true_iff in H. now apply IH.
Qed.

(** The season pattern yields a run of decimal digits that is not empty, so
    that the conversion to [int] that follows cannot fail; a name without a
    digit yields no season. *)
Theorem season_search_digits (s : string) :
  (forall digits,
      season_search s = Some digits ->
      digits <> "" /\ PyStr.all_chars PyStr.isdigit digits = true)
  /\ (PyStr.all_chars (fun c => negb (PyStr.isdigit c)) s = true ->
      season_search s = None).
Proof.
  assert (Hhere : forall t digits,
            season_match_here t = Some digits ->
            digits <> "" /\ PyStr.all_chars PyStr.isdigit digits = true).
  { intros t digits. unfold season_match_here.
    destruct (PyStr.startswith t "season"); [|discriminate].
    pose proof (take_digits_digits (PyStr.lstrip (drop 6 t))) as Hds.
    destruct (take_digits (PyStr.lstrip (drop 6 t))) as [|c ds];
      cbn [PyStr.is_empty]; [discriminate|].
    intros [= <-]. split; [discriminate | exact Hds]. }
  assert (Hnone : forall t,
            PyStr.all_chars (fun c => negb (PyStr.isdigit c)) t = true ->
            season_match_here t = None).
  { intros t Ht. unfold season_match_here.
    destruct (PyStr.startswith t "season"); [|reflexivity].
    rewrite take_digits_none; [reflexivity|].
    now apply all_chars_lstrip, all_chars_drop. }
  split.
  - induction s as [|c s IH]; intros digits; cbn [season_search].
    + destruct (season_match_here "") eqn:H; [|discriminate].
      intros [= <-]. now apply (Hhere "").
    + destruct (season_match_here (String c s)) eqn:H.
      * intros [= <-]. now apply (Hhere (String c s)).
      * apply IH.
  - induction s as [|c s IH]; intros Hs; cbn [season_search];
      rewrite (Hnone _ Hs); [reflexivity|].
    apply IH. cbn in Hs. now apply andb_true_iff in Hs.
Qed.

Lemma season_search_digits_witness :
  ("12" <> "" /\ PyStr.all_chars PyStr.isdigit "12" = true)
  /\ season_search "extras" = None.
Proof.
  split.
  - apply (proj1 (season_search_digits "season  12 (2019)") "12").
    reflexivity.
  - apply (proj2 (season_search_digits "extras")). reflexivity.
Defined.

(** *** Writing a number and reading it back *)

Lemma int_from_acc (d : Decimal.uint) (acc : positive) :
  PyStr.int_from (N.pos acc) (NilEmpty.string_of_uint d)
  = N.pos (Pos.of_uint_acc d acc).
Proof.
  revert acc. induction d; intros acc;
    cbn [NilEmpty.string_of_uint PyStr.int_from Pos.of_uint_acc];
    [reflexivity|..]; rewrite <- IHd; f_equal;
    match goal with
    | |- context [PyStr.digit_value ?c] =>
        let v := eval vm_compute in (PyStr.digit_value c) in
        change (PyStr.digit_value c) with v
    end; lia.
Qed.

Lemma int_from_zero (d : Decimal.uint) :
  PyStr.int_from 0 (NilEmpty.string_of_uint d) = Pos.of_uint d.
Proof.
  induction d; cbn [NilEmpty.string_of_uint PyStr.int_from Pos.of_uint];
    [reflexivity | exact IHd |..]; apply (int_from_acc d).
Qed.

Lemma uint_digits (d : Decimal.uint) :
  PyStr.all_chars PyStr.isdigit (NilEmpty.string_of_uint d) = true.
Proof. induction d; cbn; [reflexivity|..]; exact IHd. Qed.

(** [int(str(n))] is [n], and [str(n)] is a run of digits that is not
    empty. *)
Lemma str_of_int_digits (n : N) :
  PyStr.int_of_digits (PyStr.str_of_int n) = n
  /\ PyStr.all_chars PyStr.isdigit (PyStr.str_of_int n) = true
  /\ PyStr.str_of_int n <> "".
Proof.
  unfold PyStr.str_of_int, PyStr.int_of_digits. destruct n as [|p].
  - repeat split; discriminate.
  - cbn [N.to_uint]. pose proof (Unsigned.to_uint_nonnil p) as Hnil.
    assert (Hstr : NilZero.string_of_uint (Pos.to_uint p)
                   = NilEmpty.string_of_uint (Pos.to_uint p)).
    { destruct (Pos.to_uint p); [contradiction|..]; reflexivity. }
    rewrite Hstr. split; [|split].
    + rewrite int_from_zero. apply Unsigned.of_to.
    + apply uint_digits.
    + destruct (Pos.to_uint p); [contradiction|..]; discriminate.
Qed.

Lemma str_of_int_02d_digits (n : N) :
  PyStr.int_of_digits (PyStr.str_of_int_02d n) = n
  /\ PyStr.all_chars PyStr.isdigit (PyStr.str_of_int_02d n) = true
  /\ PyStr.str_of_int_02d n <> "".
Proof.
  destruct (str_of_int_digits n) as [Hint [Hdigits Hne]].
  unfold PyStr.str_of_int_02d.
  destruct (String.length (PyStr.str_of_int n) <? 2)%nat.
  - repeat split; [exact Hint | exact Hdigits | discriminate].
  - auto.
Qed.

Lemma digit_not_upper (c : ascii) :
  PyStr.isdigit c = true -> PyStr.isupper c = false.
Proof.
  unfold PyStr.isdigit, PyStr.isupper. cbv zeta. intros H.
  apply andb_true_iff in H. destruct H as [_ H]. apply Nat.leb_le in H.
  apply andb_false_iff. left. apply Nat.leb_gt. lia.
Qed.

Lemma digit_not_space (c : ascii) :
  PyStr.isdigit c = true -> PyStr.isspace c = false.
Proof.
  unfold PyStr.isdigit, PyStr.isspace. cbv zeta. intros H.
  apply andb_true_iff in H. destruct H as [H1 H2].
  apply Nat.leb_le in H1, H2.
  apply orb_false_iff. split; apply andb_false_iff; right;
    apply Nat.leb_gt; lia.
Qed.

Lemma lower_digits (s : string) :
  PyStr.all_chars PyStr.isdigit s = true -> PyStr.lower s = s.
Proof.
  induction s as [|c s IH]; cbn; [reflexivity|].
  intros H. apply andb_true_iff in H. destruct H as [Hc Hs].
  unfold PyStr.lower_char. rewrite (digit_not_upper c Hc).
  f_equal. now apply IH.
Qed.

Lemma take_digits_all (s : string) :
  PyStr.all_chars PyStr.isdigit s = true -> take_digits s = s.
Proof.
  induction s as [|c s IH]; cbn; [reflexivity|].
  intros H. apply andb_true_iff in H. destruct H as [Hc Hs].
  rewrite Hc. f_equal. now apply IH.
Qed.

Lemma season_search_here (s digits : string) :
  season_match_here s = Some digits -> season_search s = Some digits.
Proof.
  intros H. destruct s; cbn [season_search]; now rewrite H.
Qed.

(** A directory named [Season] and a run of digits yields the number the
    digits write. *)
Lemma season_number_of_digits (show_dir : Path) (digits : string) :
  PyStr.all_chars PyStr.isdigit digits = true -> digits <> "" ->
  season_number_of (Pathlib.child show_dir ("Season " ++ digits))
  = Some (PyStr.int_of_digits digits).
Proof.
  intros Hdigits Hne. unfold season_number_of, Pathlib.name, Pathlib.child.
  rewrite last_last. unfold PyStr.lower. rewrite map_chars_app.
  fold (PyStr.lower digits). rewrite (lower_digits digits Hdigits).
  change (PyStr.map_chars PyStr.lower_char "Season ") with "season ".
  rewrite (season_search_here _ digits); [reflexivity|].
  destruct digits as [|c digits]; [contradiction|].
  cbn [PyStr.all_chars] in Hdigits. apply andb_true_iff in Hdigits.
  destruct Hdigits as [Hc Hdigits].
  unfold season_match_here.
  change (PyStr.startswith ("season " ++ String c digits) "season")
    with true.
  change (PyStr.lstrip (drop 6 ("season " ++ String c digits)))
    with (if PyStr.isspace c then PyStr.lstrip digits else String c digits).
  rewrite (digit_not_space c Hc). cbn [take_digits]. rewrite Hc.
  cbn [PyStr.is_empty]. now rewrite (take_digits_all digits Hdigits).
Qed.

(** The directory names [_parse_tvshow_with_seasons] writes for a season
    number, padded to two digits and plain, are read back by
    [_collect_season_info] as that number. *)
Theorem season_dir_name_round_trip (show_dir : Path) (n : N) :
  season_number_of
    (Pathlib.child show_dir ("Season " ++ PyStr.str_of_int_02d n))
  = Some n
  /\ season_number_of
       (Pathlib.child show_dir ("Season " ++ PyStr.str_of_int n))
     = Some n.
Proof.
  destruct (str_of_int_digits n) as [Hint [Hdigits Hne]].
  destruct (str_of_int_02d_digits n) as [Hint' [Hdigits' Hne']].
  split.
  - rewrite season_number_of_digits by assumption. now rewrite Hint'.
  - rewrite season_number_of_digits by assumption. now rewrite Hint.
Qed.

(** * Further properties of the descriptor functions *)

(** ** Texts are trimmed *)

Lemma lstrip_head (s : string) :
  PyStr.lstrip s = ""
  \/ exists c t, PyStr.lstrip s = String c t /\ PyStr.isspace c = false.
Proof.
  induction s as [|c s IH]; cbn; [now left|].
  destruct (PyStr.isspace c) eqn:Hc; [exact IH|].
  right. exists c, s. auto.
Qed.

Lemma rstrip_idempotent (s : string) :
  PyStr.rstrip (PyStr.rstrip s) = PyStr.rstrip s.
Proof.
  induction s as [|c s IH]; cbn; [reflexivity|].
  destruct (PyStr.isspace c && PyStr.is_empty (PyStr.rstrip s)) eqn:Hc;
    [reflexivity|].
  cbn. now rewrite IH, Hc.
Qed.

Lemma rstrip_head (c : ascii) (t : string) :
  PyStr.isspace c = false ->
  PyStr.rstrip (String c t) = String c (PyStr.rstrip t).
Proof. intros Hc. cbn. now rewrite Hc. Qed.

Lemma lstrip_keep (c : ascii) (t : string) :
  PyStr.isspace c = false -> PyStr.lstrip (String c t) = String c t.
Proof. intros Hc. cbn. now rewrite Hc. Qed.

(** [strip] leaves a stripped string alone. *)
Lemma strip_idempotent (s : string) :
  PyStr.strip (PyStr.strip s) = PyStr.strip s.
Proof.
  unfold PyStr.strip.
  destruct (lstrip_head s) as [Hempty|[c [t [Hhead Hc]]]].
  - rewrite Hempty. reflexivity.
  - rewrite Hhead, (rstrip_head c t Hc), (lstrip_keep c _ Hc).
    now rewrite (rstrip_head c _ Hc), rstrip_idempotent.
Qed.

(** A text [_get_text] returns is the text of the first child with that
    tag, which is not empty, without the white space around it: it has no
    white space at its ends.  It can be empty, when the text of the child
    is white space only. *)
Theorem get_text_stripped (root : Element) (tag t : string) :
  _get_text root tag = Some t ->
  PyStr.strip t = t
  /\ exists element raw,
       ET.find root tag = Some element
       /\ ET.text element = Some raw /\ raw <> ""
       /\ t = PyStr.strip raw.
Proof.
  unfold _get_text, ET.truthy_text.
  destruct (ET.find root tag) as [element|]; [|discriminate].
  destruct (ET.text element) as [raw|] eqn:Htext; [|discriminate].
  destruct raw as [|c raw]; cbn [PyStr.is_empty]; [discriminate|].
  intros [= <-]. split; [apply strip_idempotent|].
  exists element, (String c raw).
  split; [reflexivity|]. split; [exact Htext|].
  split; [discriminate | reflexivity].
Qed.

Lemma get_text_stripped_witness :
  PyStr.strip "Alien" = "Alien"
  /\ exists element raw,
       ET.find (Elem "movie" None [Elem "title" (Some "  Alien ") []])
         "title" = Some element
       /\ ET.text element = Some raw /\ raw <> ""
       /\ "Alien" = PyStr.strip raw.
Proof.
  apply (get_text_stripped
           (Elem "movie" None [Elem "title" (Some "  Alien ") []])
           "title" "Alien").
  reflexivity.
Defined.

Example get_text_examples :
  let root :=
    Elem "movie" None
      [Elem "title" (Some "   ") []; Elem "year" None [];
       Elem "plot" (Some "") []; Elem "outline" (Some " A plot. ") []] in
  map (_get_text root) ["title"; "year"; "plot"; "outline"; "overview"]
  = [Some ""; None; None; Some "A plot."; None]
  /\ title_or_unknown (_get_text root "title") = "Unknown"
  /\ get_description root = Some "A plot.".
Proof. repeat split; reflexivity. Qed.

(** ** Language names are stable *)

Lemma lower_upper_char (c : ascii) :
  PyStr.lower_char (PyStr.upper_char c) = PyStr.lower_char c.
Proof. destruct c as [[] [] [] [] [] [] [] []]; reflexivity. Qed.

Lemma upper_upper_char (c : ascii) :
  PyStr.upper_char (PyStr.upper_char c) = PyStr.upper_char c.
Proof. destruct c as [[] [] [] [] [] [] [] []]; reflexivity. Qed.

Lemma lower_lower_char (c : ascii) :
  PyStr.lower_char (PyStr.lower_char c) = PyStr.lower_char c.
Proof. destruct c as [[] [] [] [] [] [] [] []]; reflexivity. Qed.

Lemma lower_idempotent (s : string) :
  PyStr.lower (PyStr.lower s) = PyStr.lower s.
Proof.
  induction s as [|c s IH]; cbn; [reflexivity|].
  rewrite lower_lower_char. f_equal. exact IH.
Qed.

Lemma lower_capitalize (s : string) :
  PyStr.lower (PyStr.capitalize s) = PyStr.lower s.
Proof.
  destruct s as [|c s]; cbn; [reflexivity|].
  rewrite lower_upper_char. f_equal. apply lower_idempotent.
Qed.

Lemma capitalize_idempotent (s : string) :
  PyStr.capitalize (PyStr.capitalize s) = PyStr.capitalize s.
Proof.
  destruct s as [|c s]; cbn; [reflexivity|].
  rewrite upper_upper_char. f_equal. apply lower_idempotent.
Qed.

Lemma dict_get_In (d : list (string * string)) (k v : string) :
  dict_get d k = Some v -> In (k, v) d.
Proof.
  induction d as [|[k' v'] d IH]; cbn; [discriminate|].
  destruct (String.eqb_spec k' k) as [->|Hne].
  - intros [= ->]. now left.
  - intros H. right. now apply IH.
Qed.

(** The conversion of a language code is idempotent: a display name it
    returns is converted to itself, so that the names of the tracks can be
    converted again without change. *)
Theorem convert_language_code_idempotent (code : string) :
  _convert_language_code (_convert_language_code code)
  = _convert_language_code code.
Proof.
  unfold _convert_language_code at 2 3.
  destruct (dict_get language_map (PyStr.lower code)) as [name|] eqn:Hget.
  - apply dict_get_In in Hget. unfold language_map in Hget.
    cbn [In] in Hget.
    repeat (destruct Hget as [Hget|Hget];
            [inversion Hget; reflexivity|]).
    contradiction.
  - unfold _convert_language_code.
    now rewrite lower_capitalize, Hget, capitalize_idempotent.
Qed.

(** * Properties of the data of the document *)

(** ** The text of a description *)

Lemma all_chars_app (p : ascii -> bool) (a b : string) :
  PyStr.all_chars p (a ++ b)
  = PyStr.all_chars p a && PyStr.all_chars p b.
Proof.
  induction a as [|c a IH]; cbn; [reflexivity|].
  now rewrite IH, andb_assoc.
Qed.

Lemma all_chars_and (p q : ascii -> bool) (s : string) :
  PyStr.all_chars (fun c => p c && q c) s
  = PyStr.all_chars p s && PyStr.all_chars q s.
Proof.
  induction s as [|c s IH]; cbn; [reflexivity|].
  rewrite IH. destruct (p c), (q c), (PyStr.all_chars p s); reflexivity.
Qed.

Section Replace.
Variable old : ascii.
Variable new : string.

(** After the replacement the character is gone, when the replacement text
    does not hold it. *)
Lemma replace_char_removes (s : string) :
  PyStr.all_chars (fun c => negb (Ascii.eqb c old)) new = true ->
  PyStr.all_chars (fun c => negb (Ascii.eqb c old))
    (PDFGenerator.replace_char old new s) = true.
Proof.
  intros Hnew. induction s as [|c s IH]; cbn; [reflexivity|].
  destruct (Ascii.eqb c old) eqn:Hc.
  - now rewrite all_chars_app, Hnew, IH.
  - cbn. now rewrite Hc, IH.
Qed.

Lemma replace_char_keeps (p : ascii -> bool) (s : string) :
  PyStr.all_chars p new = true -> PyStr.all_chars p s = true ->
  PyStr.all_chars p (PDFGenerator.replace_char old new s) = true.
Proof.
  intros Hnew. induction s as [|c s IH]; cbn; [reflexivity|].
  intros Hs. apply andb_true_iff in Hs. destruct Hs as [Hc Hs].
  destruct (Ascii.eqb c old).
  - now rewrite all_chars_app, Hnew, IH.
  - cbn. now rewrite Hc, IH.
Qed.

Lemma replace_char_absent (s : string) :
  PyStr.all_chars (fun c => negb (Ascii.eqb c old)) s = true ->
  PDFGenerator.replace_char old new s = s.
Proof.
  induction s as [|c s IH]; cbn; [reflexivity|].
  intros Hs. apply andb_true_iff in Hs. destruct Hs as [Hc Hs].
  apply negb_true_iff in Hc. rewrite Hc. f_equal. now apply IH.
Qed.
End Replace.

Example get_description_examples :
  map PDFGenerator._get_description
    [Some "Tom & Jerry <3 > all"; Some "A plot."; Some ""; None]
  = ["Tom &amp; Jerry &lt;3 &gt; all"; "A plot.";
     "<i>No description available</i>"; "<i>No description available</i>"].
Proof. reflexivity. Qed.

(** The text made of a description that is not empty holds no [<] and no
    [>]: whatever markup the description carries is escaped. *)
Theorem get_description_escaped (d : string) :
  d <> "" ->
  PyStr.all_chars
    (fun c => negb (Ascii.eqb c "<") && negb (Ascii.eqb c ">"))
    (PDFGenerator._get_description (Some d)) = true.
Proof.
  intros Hne. unfold PDFGenerator._get_description.
  destruct d as [|c d]; [contradiction|]. cbn [PyStr.is_empty]. cbv zeta.
  rewrite all_chars_and. apply andb_true_iff. split.
  - apply replace_char_keeps; [reflexivity|].
    apply replace_char_removes. reflexivity.
  - apply replace_char_removes. reflexivity.
Qed.

Lemma get_description_escaped_witness :
  PyStr.all_chars
    (fun c => negb (Ascii.eqb c "<") && negb (Ascii.eqb c ">"))
    (PDFGenerator._get_description (Some "<b>Tom & Jerry</b>")) = true.
Proof.
  apply (get_description_escaped "<b>Tom & Jerry</b>"). discriminate.
Defined.

Lemma take_all (n : nat) (s : string) :
  String.length s <= n -> PDFGenerator.take n s = s.
Proof.
  revert s. induction n as [|n IH]; intros [|c s]; cbn; try reflexivity.
  - lia.
  - intros Hlen. f_equal. apply IH. lia.
Qed.

Lemma take_length (n : nat) (s : string) :
  n <= String.length s -> String.length (PDFGenerator.take n s) = n.
Proof.
  revert s. induction n as [|n IH]; intros [|c s]; cbn; try reflexivity.
  - lia.
  - intros Hlen. f_equal. apply IH. lia.
Qed.

Lemma take_all_chars (p : ascii -> bool) (n : nat) (s : string) :
  PyStr.all_chars p s = true ->
  PyStr.all_chars p (PDFGenerator.take n s) = true.
Proof.
  revert s. induction n as [|n IH]; intros [|c s]; cbn; try reflexivity.
  intros Hs. apply andb_true_iff in Hs. destruct Hs as [Hc Hs].
  now rewrite Hc, IH.
Qed.

Lemma string_length_app (a b : string) :
  String.length (a ++ b) = String.length a + String.length b.
Proof. induction a as [|c a IH]; cbn; [reflexivity | now rewrite IH]. Qed.

(** A description without [&], [<] and [>] is shown as it is when it has
    at most 500 characters; a longer one is cut to its first 500
    characters followed by three dots, 503 characters in all. *)
Theorem get_description_plain (d : string) :
  d <> "" ->
  PyStr.all_chars
    (fun c => negb (Ascii.eqb c "&") && negb (Ascii.eqb c "<")
              && negb (Ascii.eqb c ">")) d = true ->
  (String.length d <= 500 -> PDFGenerator._get_description (Some d) = d)
  /\ (500 < String.length d ->
      PDFGenerator._get_description (Some d)
      = (PDFGenerator.take 500 d ++ "...")%string
      /\ String.length (PDFGenerator._get_description (Some d)) = 503).
Proof.
  intros Hne Hplain. rewrite !all_chars_and in Hplain.
  apply andb_true_iff in Hplain. destruct Hplain as [Hplain Hgt].
  apply andb_true_iff in Hplain. destruct Hplain as [Hamp Hlt].
  assert (Hescape : forall t,
            PyStr.all_chars (fun c => negb (Ascii.eqb c "&")) t = true ->
            PyStr.all_chars (fun c => negb (Ascii.eqb c "<")) t = true ->
            PyStr.all_chars (fun c => negb (Ascii.eqb c ">")) t = true ->
            PDFGenerator.replace_char ">" "&gt;"
              (PDFGenerator.replace_char "<" "&lt;"
                 (PDFGenerator.replace_char "&" "&amp;" t)) = t).
  { intros t H1 H2 H3.
    rewrite (replace_char_absent "&" "&amp;" t H1).
    rewrite (replace_char_absent "<" "&lt;" t H2).
    apply (replace_char_absent ">" "&gt;" t H3). }
  unfold PDFGenerator._get_description.
  assert (Hempty : PyStr.is_empty d = false)
    by (destruct d; [contradiction | reflexivity]).
  rewrite Hempty. cbv zeta. split; intros Hlen.
  - apply Nat.ltb_ge in Hlen. rewrite Hlen, take_all by now apply Nat.ltb_ge.
    now apply Hescape.
  - pose proof Hlen as Hlt'. apply Nat.ltb_lt in Hlt'. rewrite Hlt'.
    rewrite Hescape.
    + split; [reflexivity|].
      rewrite string_length_app, take_length by lia. reflexivity.
    + rewrite all_chars_app, take_all_chars by assumption. reflexivity.
    + rewrite all_chars_app, take_all_chars by assumption. reflexivity.
    + rewrite all_chars_app, take_all_chars by assumption. reflexivity.
Qed.

Lemma get_description_plain_witness :
  PDFGenerator._get_description (Some "A plot.") = "A plot.".
Proof.
  apply (proj1 (get_description_plain "A plot." ltac:(discriminate) eq_refl)).
  cbn. lia.
Defined.

(** ** The grid of seasons *)

Section Grid.
Import PDFGenerator.

Lemma add_cell_invariant (seasons : list Season) :
  forall (rows : list (list Cell)) (current : list Cell),
    List.length current < 3 ->
    Forall (fun row => List.length row = 3) rows ->
    let state := fold_left add_cell seasons (rows, current) in
    List.length (snd state) < 3
    /\ Forall (fun row => List.length row = 3) (fst state)
    /\ List.concat (fst state) ++ snd state
       = List.concat rows ++ current ++ map SeasonCell seasons.
Proof.
  induction seasons as [|s seasons IH]; intros rows current Hlen Hrows.
  - cbn. rewrite app_nil_r. auto.
  - cbn [fold_left map].
    assert (Hstep :
      (add_cell (rows, current) s
       = (rows ++ [current ++ [SeasonCell s]], [])
       /\ List.length (current ++ [SeasonCell s]) = 3)
      \/ (add_cell (rows, current) s = (rows, current ++ [SeasonCell s])
          /\ List.length (current ++ [SeasonCell s]) <> 3)).
    { unfold add_cell, seasons_per_row. cbn [fst snd].
      destruct (Nat.eqb_spec (List.length (current ++ [SeasonCell s])) 3);
        auto. }
    destruct Hstep as [[-> Hfull]|[-> Hopen]].
    + specialize (IH (rows ++ [current ++ [SeasonCell s]]) []).
      destruct IH as [H1 [H2 H3]].
      * cbn. lia.
      * apply Forall_app. split; [assumption|]. now constructor.
      * repeat split; [assumption | assumption|].
        rewrite H3, concat_app. cbn [List.concat app].
        now rewrite app_nil_r, <- !app_assoc.
    + specialize (IH rows (current ++ [SeasonCell s])).
      destruct IH as [H1 [H2 H3]].
      * rewrite length_app in *. cbn [List.length] in *. lia.
      * assumption.
      * repeat split; [assumption | assumption|].
        rewrite H3. now rewrite <- !app_assoc.
Qed.

Lemma fill_row_full (current : list Cell) :
  0 < List.length current < 3 ->
  exists k,
    0 < k < 3
    /\ fill_row seasons_per_row current = current ++ repeat EmptyCell k
    /\ List.length (fill_row seasons_per_row current) = 3.
Proof.
  destruct current as [|a [|b [|c current]]]; cbn [List.length]; try lia;
    intros _.
  - exists 2. repeat split; lia.
  - exists 1. repeat split; lia.
Qed.

(** The grid of seasons has three cells in every row; read row by row it
    holds the seasons in their order, followed by fewer than three empty
    cells; it has no row when there is no season. *)
Theorem season_rows_grid (seasons : list Season) :
  Forall (fun row => List.length row = 3) (season_rows seasons)
  /\ (exists k,
         k < 3
         /\ List.concat (season_rows seasons)
            = map SeasonCell seasons ++ repeat EmptyCell k
         /\ 3 * List.length (season_rows seasons)
            = List.length seasons + k)
  /\ (season_rows seasons = [] <-> seasons = []).
Proof.
  assert (Hcount : forall rows : list (list Cell),
            Forall (fun row => List.length row = 3) rows ->
            List.length (List.concat rows) = 3 * List.length rows).
  { induction 1 as [|row rows Hrow _ IH]; cbn; [reflexivity|].
    rewrite length_app, IH, Hrow. lia. }
  assert (Hgrid :
    Forall (fun row => List.length row = 3) (season_rows seasons)
    /\ exists k,
         k < 3
         /\ List.concat (season_rows seasons)
            = map SeasonCell seasons ++ repeat EmptyCell k).
  { unfold season_rows.
    destruct (add_cell_invariant seasons [] []) as [Hlen [Hrows Hcells]];
      [cbn; lia | constructor |].
    cbn [List.concat app] in Hcells.
    destruct (snd (fold_left add_cell seasons ([], [])))
      as [|c current] eqn:Hcurrent.
    - split; [assumption|]. exists 0. split; [lia|].
      rewrite app_nil_r in Hcells. cbn. now rewrite app_nil_r.
    - destruct (fill_row_full (c :: current)) as [k [Hk [Hfill Hfull]]];
        [cbn in *; lia|].
      split.
      + apply Forall_app. split; [assumption|]. now constructor.
      + exists k. split; [lia|].
        rewrite concat_app, Hfill. cbn [List.concat]. rewrite app_nil_r.
        now rewrite app_assoc, Hcells. }
  destruct Hgrid as [Hrows [k [Hk Hcells]]].
  assert (Hsize : 3 * List.length (season_rows seasons)
                  = List.length seasons + k).
  { rewrite <- (Hcount _ Hrows), Hcells.
    now rewrite length_app, length_map, repeat_length. }
  split; [assumption|]. split; [exists k; auto|]. split.
  - intros Hnil. rewrite Hnil in Hsize. cbn in Hsize.
    destruct seasons; [reflexivity | cbn in Hsize; lia].
  - intros ->. reflexivity.
Qed.

End Grid.

Example season_rows_example :
  let s n := mkSeason n 0 None in
  PDFGenerator.season_rows [s 1%N; s 2%N; s 3%N; s 4%N]
  = [ [PDFGenerator.SeasonCell (s 1%N); PDFGenerator.SeasonCell (s 2%N);
       PDFGenerator.SeasonCell (s 3%N)];
      [PDFGenerator.SeasonCell (s 4%N); PDFGenerator.EmptyCell;
       PDFGenerator.EmptyCell] ].
Proof. reflexivity. Qed.

(** ** The statistics of a scan *)

Lemma counts_sum (items : list MediaItem) :
  Forall (fun item => media_type item = "movie"
                      \/ media_type item = "tvshow") items ->
  PDFGenerator.count_movies items + PDFGenerator.count_shows items
  = List.length items.
Proof.
  unfold PDFGenerator.count_movies, PDFGenerator.count_shows.
  induction 1 as [|item items Htype _ IH]; [reflexivity|].
  cbn [filter List.length].
  destruct Htype as [-> | ->]; cbn [String.eqb]; cbn; lia.
Qed.

(** In the statistics of what a fresh scanner returns, the count of the
    movies and the count of the shows add up to the total: every item is
    counted once. *)
Theorem statistics_of_scan (fs : Node) (base : Path) :
  let items := snd (scan fs (new_scanner base)) in
  PDFGenerator.count_movies items + PDFGenerator.count_shows items
  = List.length items
  /\ PDFGenerator.statistics_data items
     = [ ["Category"; "Count"];
         ["Movies";
          PyStr.str_of_int (N.of_nat (PDFGenerator.count_movies items))];
         ["TV Shows";
          PyStr.str_of_int (N.of_nat (PDFGenerator.count_shows items))];
         ["Total";
          PyStr.str_of_int
            (N.of_nat (PDFGenerator.count_movies items
                       + PDFGenerator.count_shows items))] ].
Proof.
  intros items.
  assert (Hsum : PDFGenerator.count_movies items
                 + PDFGenerator.count_shows items = List.length items).
  { apply counts_sum. apply Forall_forall. intros item Hin.
    subst items. rewrite scan_result in Hin. apply in_app_or in Hin.
    destruct Hin as [Hin|Hin]; apply in_flat_map in Hin;
      destruct Hin as [p [Hp Hitem]]; apply filter_In in Hp.
    - destruct (movie_nfo_item fs p (proj2 Hp))
        as [item' [Hparse [_ [Htype _]]]].
      rewrite Hparse in Hitem. destruct Hitem as [<-|[]]. now left.
    - destruct (_parse_tvshow_with_seasons fs p) as [item'|] eqn:Hparse;
        [|contradiction].
      destruct Hitem as [<-|[]]. right.
      now apply parse_tvshow_item in Hparse. }
  split; [exact Hsum|].
  unfold PDFGenerator.statistics_data. now rewrite Hsum.
Qed.

(** * More on the sort key and on the tracks *)

(** ** The sort key does not see the case of the letters *)

Lemma lower_upper (s : string) :
  PyStr.lower (PyStr.upper s) = PyStr.lower s.
Proof.
  induction s as [|c s IH]; cbn; [reflexivity|].
  rewrite lower_upper_char. f_equal. exact IH.
Qed.

(** The sort key of a title is the sort key of the title in upper case and
    of the title in lower case: sorting by title ignores the case of the
    letters. *)
Theorem get_sort_key_ignores_case (title : string) :
  _get_sort_key (PyStr.upper title) = _get_sort_key title
  /\ _get_sort_key (PyStr.lower title) = _get_sort_key title.
Proof.
  unfold _get_sort_key. split.
  - rewrite lower_upper. destruct title; reflexivity.
  - rewrite lower_idempotent. destruct title; reflexivity.
Qed.

(** ** The tracks of the items of a scan *)

Lemma extract_subtitle_tracks_NoDup (root : Element) :
  NoDup (_extract_subtitle_tracks root).
Proof.
  unfold _extract_subtitle_tracks.
  rewrite subtitle_loop_names, dedup_loop. cbn [app].
  apply NoDup_filter, first_seen_NoDup.
Qed.

(** The case in which the tracks are those of the descriptor of the item *)
Ltac own_descriptor :=
  split; [assumption|]; split; [reflexivity|]; split; [reflexivity|];
  split; [auto|]; left; reflexivity.

(** The two track lists of an item of a scan are read from one and the
    same descriptor that parses, never from two.  That descriptor is the
    one of the item, or, for a show whose own descriptor has neither audio
    nor subtitle tracks, the first [.nfo] entry of the directory
    [Season NN] or [Season N] of its first season.  For a movie it is the
    one of the item.  The subtitle tracks hold no name twice. *)
Theorem scan_items_tracks (fs : Node) (base : Path) (item : MediaItem) :
  In item (snd (scan fs (new_scanner base))) ->
  NoDup (subtitle_tracks item)
  /\ exists descriptor root,
       Pathlib.parse fs descriptor = Some root
       /\ audio_tracks item = _extract_audio_tracks root
       /\ subtitle_tracks item = _extract_subtitle_tracks root
       /\ (media_type item = "movie" -> descriptor = nfo_path item)
       /\ (descriptor = nfo_path item
           \/ (media_type item = "tvshow"
               /\ (exists own,
                      Pathlib.parse fs (nfo_path item) = Some own
                      /\ _extract_audio_tracks own = []
                      /\ _extract_subtitle_tracks own = [])
               /\ exists first rest season_dir others,
                    _collect_season_info fs (Pathlib.parent (nfo_path item))
                    = Some (first :: rest)
                    /\ (season_dir
                        = Pathlib.child (Pathlib.parent (nfo_path item))
                            ("Season "
                             ++ PyStr.str_of_int_02d (season_number first))
                        \/ season_dir
                           = Pathlib.child (Pathlib.parent (nfo_path item))
                               ("Season "
                                ++ PyStr.str_of_int (season_number first)))
                    /\ Pathlib.glob fs season_dir ".nfo"
                       = descriptor :: others)).
Proof.
  intros Hin.
  assert (Hsource : exists descriptor root,
    Pathlib.parse fs descriptor = Some root
    /\ audio_tracks item = _extract_audio_tracks root
    /\ subtitle_tracks item = _extract_subtitle_tracks root
    /\ (media_type item = "movie" -> descriptor = nfo_path item)
    /\ (descriptor = nfo_path item
        \/ (media_type item = "tvshow"
            /\ (exists own,
                   Pathlib.parse fs (nfo_path item) = Some own
                   /\ _extract_audio_tracks own = []
                   /\ _extract_subtitle_tracks own = [])
            /\ exists first rest season_dir others,
                 _collect_season_info fs (Pathlib.parent (nfo_path item))
                 = Some (first :: rest)
                 /\ (season_dir
                     = Pathlib.child (Pathlib.parent (nfo_path item))
                         ("Season "
                          ++ PyStr.str_of_int_02d (season_number first))
                     \/ season_dir
                        = Pathlib.child (Pathlib.parent (nfo_path item))
                            ("Season "
                             ++ PyStr.str_of_int (season_number first)))
                 /\ Pathlib.glob fs season_dir ".nfo"
                    = descriptor :: others))).
  { rewrite scan_result in Hin. apply in_app_or in Hin.
    destruct Hin as [Hin|Hin]; apply in_flat_map in Hin;
      destruct Hin as [p [_ Hitem]].
    - unfold _parse_nfo in Hitem.
      destruct (Pathlib.parse fs p) as [root|] eqn:Hparse; [|contradiction].
      destruct Hitem as [<-|[]]. exists p, root. cbn. own_descriptor.
    - unfold _parse_tvshow_with_seasons in Hitem.
      destruct (Pathlib.parse fs p) as [root|] eqn:Hparse; [|contradiction].
      destruct (_collect_season_info fs (Pathlib.parent p)) as [l|] eqn:Hl;
        [|contradiction].
      destruct Hitem as [<-|[]].
      cbn [audio_tracks subtitle_tracks nfo_path media_type].
      destruct (_extract_audio_tracks root) as [|a audio] eqn:Haudio;
        [|exists p, root; rewrite Haudio; cbn; own_descriptor].
      destruct (_extract_subtitle_tracks root) as [|t subtitles]
        eqn:Hsubtitles;
        [|exists p, root; rewrite Haudio, Hsubtitles; cbn; own_descriptor].
      destruct l as [|first l];
        [exists p, root; rewrite Haudio, Hsubtitles; cbn; own_descriptor|].
      unfold borrow_tracks.
      set (padded :=
             Pathlib.child (Pathlib.parent p)
               ("Season " ++ PyStr.str_of_int_02d (season_number first))).
      set (plain :=
             Pathlib.child (Pathlib.parent p)
               ("Season " ++ PyStr.str_of_int (season_number first))).
      cbv zeta.
      assert (Hdir : (if Pathlib.exists_ fs padded then padded else plain)
                     = padded
                     \/ (if Pathlib.exists_ fs padded then padded else plain)
                        = plain)
        by (destruct (Pathlib.exists_ fs padded); auto).
      revert Hdir.
      generalize (if Pathlib.exists_ fs padded then padded else plain).
      intros season_dir Hdir.
      destruct (Pathlib.exists_ fs season_dir);
        [|exists p, root; rewrite Haudio, Hsubtitles; cbn; own_descriptor].
      destruct (Pathlib.glob fs season_dir ".nfo")
        as [|episode_nfo others] eqn:Hglob;
        [exists p, root; rewrite Haudio, Hsubtitles; cbn; own_descriptor|].
      destruct (Pathlib.parse fs episode_nfo) as [ep_root|] eqn:Hepisode;
        [|exists p, root; rewrite Haudio, Hsubtitles; cbn; own_descriptor].
      exists episode_nfo, ep_root. cbn [fst snd].
      split; [assumption|]. split; [reflexivity|]. split; [reflexivity|].
      split; [discriminate|]. right.
      split; [reflexivity|]. split; [exists root; auto|].
      exists first, l, season_dir, others. auto. }
  split; [|exact Hsource].
  destruct Hsource as [descriptor [root [_ [_ [-> _]]]]].
  apply extract_subtitle_tracks_NoDup.
Qed.

Example scan_borrows_tracks :
  map (fun item => (title item, audio_tracks item, subtitle_tracks item))
    (snd (scan borrow_tree (new_scanner ["show"])))
  = [("Dark", ["German"], ["English"])].
Proof. reflexivity. Qed.

Lemma scan_items_tracks_witness :
  NoDup ["English"]
  /\ exists descriptor root,
       Pathlib.parse borrow_tree descriptor = Some root
       /\ ["German"] = _extract_audio_tracks root
       /\ ["English"] = _extract_subtitle_tracks root
       /\ ("tvshow" = "movie" -> descriptor = ["show"; "tvshow.nfo"])
       /\ (descriptor = ["show"; "tvshow.nfo"]
           \/ ("tvshow" = "tvshow"
               /\ (exists own,
                      Pathlib.parse borrow_tree ["show"; "tvshow.nfo"]
                      = Some own
                      /\ _extract_audio_tracks own = []
                      /\ _extract_subtitle_tracks own = [])
               /\ exists first rest season_dir others,
                    _collect_season_info borrow_tree
                      (Pathlib.parent ["show"; "tvshow.nfo"])
                    = Some (first :: rest)
                    /\ (season_dir
                        = Pathlib.child
                            (Pathlib.parent ["show"; "tvshow.nfo"])
                            ("Season "
                             ++ PyStr.str_of_int_02d (season_number first))
                        \/ season_dir
                           = Pathlib.child
                               (Pathlib.parent ["show"; "tvshow.nfo"])
                               ("Season "
                                ++ PyStr.str_of_int (season_number first)))
                    /\ Pathlib.glob borrow_tree season_dir ".nfo"
                       = descriptor :: others)).
Proof.
  apply (scan_items_tracks borrow_tree ["show"]
           (mkMediaItem "Dark" None None "tvshow" None
              ["show"; "tvshow.nfo"] ["German"] ["English"]
              (Some [mkSeason 1 1 None]))).
  left. reflexivity.
Defined.

(** * No show descriptor is lost *)

Lemma unique_names_entry (es : list (string * Node)) (name : string)
    (sub : Node) :
  unique_names (Dir es) -> In (name, sub) es ->
  unique_names sub /\ Pathlib.assoc name es = Some sub.
Proof.
  cbn [unique_names]. intros [Hnodup Hall] Hin.
  induction es as [|[n x] es IH]; [contradiction|].
  cbn [map fst] in Hnodup. apply NoDup_cons_iff in Hnodup.
  destruct Hnodup as [Hfresh Hnodup]. destruct Hall as [Hx Hall].
  cbn [Pathlib.assoc]. destruct Hin as [Heq|Hin].
  - inversion Heq; subst. now rewrite String.eqb_refl.
  - destruct (String.eqb_spec n name) as [->|Hne].
    + exfalso. apply Hfresh. apply in_map_iff. now exists (name, sub).
    + now apply IH.
Qed.

(** What [rglob] yields lies in a directory of the tree. *)
Lemma walk_parent (ext : string) :
  forall (n : Node) (base p : Path),
    unique_names n ->
    In p (Pathlib.walk ext base n) ->
    exists rel name es,
      p = (base ++ rel) ++ [name]
      /\ Pathlib.lookup n rel = Some (Dir es).
Proof.
  fix IH 1. intros [content|es] base p Hunique; cbn [Pathlib.walk];
    [contradiction|].
  intros Hin. apply in_app_or in Hin. destruct Hin as [Hin|Hin].
  - apply in_map_iff in Hin. destruct Hin as [e [<- _]].
    exists [], (fst e), es. rewrite app_nil_r. now split.
  - assert (Hentries : forall name sub,
              In (name, sub) es -> In (name, sub) es) by auto.
    revert Hentries Hin. generalize es at 1 3 as l.
    fix IHes 1. intros [|[name sub] l] Hentries; cbn; [contradiction|].
    intros Hin. apply in_app_or in Hin. destruct Hin as [Hin|Hin].
    + destruct (unique_names_entry es name sub Hunique)
        as [Hsub Hassoc]; [apply Hentries; now left|].
      destruct (IH sub _ _ Hsub Hin) as [rel [nm [es' [Hp Hrel]]]].
      exists (name :: rel), nm, es'. split.
      * rewrite Hp. unfold Pathlib.child. now rewrite <- !app_assoc.
      * cbn [Pathlib.lookup]. now rewrite Hassoc.
    + apply (IHes l); [|exact Hin].
      intros nm sb Hl. apply Hentries. now right.
Qed.

Lemma assoc_entry (name : string) (es : list (string * Node)) (sub : Node) :
  Pathlib.assoc name es = Some sub -> In (name, sub) es.
Proof.
  induction es as [|[n x] es IH]; cbn; [discriminate|].
  destruct (String.eqb_spec n name) as [->|Hne].
  - intros [= ->]. now left.
  - intros H. right. now apply IH.
Qed.

Lemma lookup_unique (p : Path) :
  forall n m,
    unique_names n -> Pathlib.lookup n p = Some m -> unique_names m.
Proof.
  induction p as [|c p IH]; intros n m Hunique; cbn [Pathlib.lookup].
  - now intros [= <-].
  - destruct n as [content|es]; [discriminate|].
    destruct (Pathlib.assoc c es) as [sub|] eqn:Hassoc; [|discriminate].
    apply IH. apply assoc_entry in Hassoc.
    now apply (unique_names_entry es c sub Hunique).
Qed.

(** [_collect_season_info] returns for every directory. *)
Lemma collect_season_info_total (fs : Node) (show_dir : Path)
    (listing : list Path) :
  Pathlib.iterdir fs show_dir = Some listing ->
  exists seasons, _collect_season_info fs show_dir = Some seasons.
Proof.
  intros Hlisting. unfold _collect_season_info. rewrite Hlisting. eauto.
Qed.

(** The directory of a descriptor that [rglob] yields is a directory. *)
Lemma rglob_parent (fs : Node) (base p : Path) (ext : string) :
  unique_names fs ->
  In p (Pathlib.rglob fs base ext) ->
  exists listing, Pathlib.iterdir fs (Pathlib.parent p) = Some listing.
Proof.
  intros Hunique. unfold Pathlib.rglob.
  destruct (Pathlib.lookup fs base) as [n|] eqn:Hbase; [|contradiction].
  intros Hin.
  destruct (walk_parent ext n base p (lookup_unique base fs n Hunique Hbase)
              Hin) as [rel [name [es [-> Hrel]]]].
  unfold Pathlib.parent, Pathlib.iterdir.
  rewrite removelast_last, lookup_app, Hbase, Hrel. eauto.
Qed.

(** In a file tree, every descriptor named [tvshow.nfo] that the scan finds
    and that parses gives a show with the title and the year of the
    descriptor: [_collect_season_info] cannot fail on the directory of a
    descriptor that was found. *)
Theorem scan_keeps_tvshow (fs : Node) (base nfo_file : Path)
    (root : Element) :
  unique_names fs ->
  In nfo_file (Pathlib.rglob fs base ".nfo") ->
  PyStr.lower (Pathlib.name nfo_file) = "tvshow.nfo" ->
  Pathlib.parse fs nfo_file = Some root ->
  exists item found,
    In item (snd (scan fs (new_scanner base)))
    /\ nfo_path item = nfo_file
    /\ media_type item = "tvshow"
    /\ title item = title_or_unknown (_get_text root "title")
    /\ year item = _get_text root "year"
    /\ description item = get_description root
    /\ _collect_season_info fs (Pathlib.parent nfo_file) = Some found
    /\ seasons item = Some found.
Proof.
  intros Hunique Hfound Hname Hparse.
  destruct (rglob_parent fs base nfo_file ".nfo" Hunique Hfound)
    as [listing Hlisting].
  destruct (collect_season_info_total fs (Pathlib.parent nfo_file) listing
              Hlisting) as [l Hl].
  assert (Hitem : exists item,
            _parse_tvshow_with_seasons fs nfo_file = Some item
            /\ nfo_path item = nfo_file
            /\ media_type item = "tvshow"
            /\ title item = title_or_unknown (_get_text root "title")
            /\ year item = _get_text root "year"
            /\ description item = get_description root
            /\ seasons item = Some l).
  { unfold _parse_tvshow_with_seasons. rewrite Hparse, Hl.
    eexists. split; [reflexivity|]. cbn. auto 10. }
  destruct Hitem as [item [Hitem Hfields]].
  exists item, l. rewrite scan_result.
  split; [|intuition].
  apply in_or_app. right. apply in_flat_map. exists nfo_file. split.
  - apply filter_In. split; [assumption|].
    unfold is_tvshow_nfo. now apply String.eqb_eq.
  - rewrite Hitem. now left.
Qed.

Lemma borrow_tree_unique_names : unique_names borrow_tree.
Proof.
  cbn. repeat split; repeat constructor; cbn; intuition discriminate.
Qed.

Lemma scan_keeps_tvshow_witness :
  exists item found,
    In item (snd (scan borrow_tree (new_scanner ["show"])))
    /\ nfo_path item = ["show"; "tvshow.nfo"]
    /\ media_type item = "tvshow"
    /\ title item
       = title_or_unknown
           (_get_text (Elem "tvshow" None [Elem "title" (Some "Dark") []])
              "title")
    /\ year item
       = _get_text (Elem "tvshow" None [Elem "title" (Some "Dark") []])
           "year"
    /\ description item
       = get_description (Elem "tvshow" None [Elem "title" (Some "Dark") []])
    /\ _collect_season_info borrow_tree
         (Pathlib.parent ["show"; "tvshow.nfo"]) = Some found
    /\ seasons item = Some found.
Proof.
  apply (scan_keeps_tvshow borrow_tree ["show"] ["show"; "tvshow.nfo"]
           (Elem "tvshow" None [Elem "title" (Some "Dark") []])
           borrow_tree_unique_names).
  - left. reflexivity.
  - reflexivity.
  - reflexivity.
Defined.
